(** * Studio GitHub integration server: webhook verification, dispatch,
      metrics aggregation, configuration lookup and cache keys.

    A shallow embedding of
      - claude-framework/mcp-servers/github/main.py
        (_verify_webhook_signature, github_webhook, _process_webhook,
         _store_webhook_event, _store_webhook_error, _notify_studio_backend,
         _register_webhook_handlers, _analyze_pr_metrics,
         _generate_pr_insights, _get_pr_config, PRAutomationConfig),
      - claude-framework/mcp-servers/github/utils.py
        (CacheUtils.generate_cache_key),
    together with the pieces of the Python runtime these functions call
    (hashlib.sha256, hashlib.md5, hmac.new, hmac.compare_digest,
    str.encode, json.dumps).

    Conventions.
      - A Python [str] is a [string]: the sequence of its code points, each
        below 256.  This is exactly the range of a header value, which the
        web framework decodes as Latin-1.
      - [bytes] are [list byte].
      - A call that may raise returns a [result]; state is passed
        explicitly. *)

From Stdlib Require Import ZArith NArith List Ascii String Strings.Byte Lia Bool.
From Stdlib Require Import Permutation Sorted QArith DecimalString OrderedTypeEx.
From stdpp Require Import base option list strings gmap sorting.

Import ListNotations.
Set Warnings "-register-all".
Local Open Scope string_scope.
Local Open Scope list_scope.
Local Open Scope Z_scope.

(* ===================================================================== *)
(** * Exceptions and results *)
(* ===================================================================== *)

(** The exception classes the modelled code can meet.  [CancelledError]
    derives from BaseException only, so [except Exception] does not catch
    it; every other class derives from Exception. *)
Inductive exn_class : Type :=
| TypeError
| AttributeError
| KeyError
| JSONDecodeError
| ConnectionError
| RuntimeError
| OverflowError
| CancelledError
| HTTPException (status_code : Z).

(** An exception: its class and [str(e)]. *)
Record exn : Type := PyErr { exn_cls : exn_class; exn_str : string }.

Definition is_Exception (e : exn) : bool :=
  match exn_cls e with
  | CancelledError => false
  | _ => true
  end.

Inductive result (A : Type) : Type :=
| Ok (a : A)
| Raise (e : exn).
Arguments Ok {A} a.
Arguments Raise {A} e.

(* ===================================================================== *)
(** * Python strings and bytes *)
(* ===================================================================== *)

Definition bytes : Type := list byte.

Definition code (c : ascii) : N := N_of_ascii c.

Definition codes (s : string) : list N := map code (list_ascii_of_string s).

Definition byte_of_Z (z : Z) : byte :=
  match Byte.of_N (Z.to_N (z mod 256)) with
  | Some b => b
  | None => x00
  end.

Definition Z_of_byte (b : byte) : Z := Z.of_N (Byte.to_N b).

(** [bool(s)] for a str: the empty string is falsy. *)
Definition str_truthy (s : string) : bool :=
  match s with
  | EmptyString => false
  | String _ _ => true
  end.

(** [bool(x)] for an Optional[str]: None and the empty string are falsy. *)
Definition opt_truthy (o : option string) : bool :=
  match o with
  | None => false
  | Some s => str_truthy s
  end.

Definition char_is_ascii (c : ascii) : bool := (code c <? 128)%N.

(** [str.isascii]. *)
Definition is_ascii (s : string) : bool :=
  forallb char_is_ascii (list_ascii_of_string s).

(** UTF-8 encoding of one code point below 256. *)
Definition utf8_char (c : ascii) : bytes :=
  let n := Z.of_N (code c) in
  if n <? 128 then [byte_of_Z n]
  else [byte_of_Z (Z.lor 192 (Z.shiftr n 6)); byte_of_Z (Z.lor 128 (Z.land n 63))].

(** [s.encode()] (UTF-8).  It is total on the strings of this
    development: the code points [str.encode] refuses, the lone surrogates,
    lie above 255. *)
Definition str_encode (s : string) : bytes :=
  flat_map utf8_char (list_ascii_of_string s).

Definition hex_digit (n : Z) : ascii :=
  if n <? 10 then ascii_of_N (Z.to_N (48 + n)) else ascii_of_N (Z.to_N (87 + n)).

Definition hex_of_byte (b : byte) : list ascii :=
  let n := Z_of_byte b in [hex_digit (Z.shiftr n 4); hex_digit (Z.land n 15)].

(** [bytes.hex()]: two lowercase hexadecimal digits per byte. *)
Definition hex (bs : bytes) : string :=
  string_of_list_ascii (flat_map hex_of_byte bs).

(* ===================================================================== *)
(** * hashlib.sha256 (FIPS 180-4) *)
(* ===================================================================== *)

Module SHA256.

Definition wrap32 (x : Z) : Z := x mod 4294967296.

Definition add32 (x y : Z) : Z := wrap32 (x + y).

Definition rotr (n x : Z) : Z :=
  Z.lor (Z.shiftr x n) (wrap32 (Z.shiftl x (32 - n))).

Definition Ch (x y z : Z) : Z :=
  Z.lxor (Z.land x y) (Z.land (Z.lxor x 4294967295) z).

Definition Maj (x y z : Z) : Z :=
  Z.lxor (Z.lxor (Z.land x y) (Z.land x z)) (Z.land y z).

Definition bsig0 (x : Z) : Z := Z.lxor (Z.lxor (rotr 2 x) (rotr 13 x)) (rotr 22 x).
Definition bsig1 (x : Z) : Z := Z.lxor (Z.lxor (rotr 6 x) (rotr 11 x)) (rotr 25 x).
Definition ssig0 (x : Z) : Z := Z.lxor (Z.lxor (rotr 7 x) (rotr 18 x)) (Z.shiftr x 3).
Definition ssig1 (x : Z) : Z := Z.lxor (Z.lxor (rotr 17 x) (rotr 19 x)) (Z.shiftr x 10).

(** Round constants (fractional parts of the cube roots of the first
    sixty-four primes), in decimal. *)
Definition K256 : list Z :=
    [1116352408; 1899447441; 3049323471; 3921009573; 961987163; 1508970993;
     2453635748; 2870763221; 3624381080; 310598401; 607225278; 1426881987;
     1925078388; 2162078206; 2614888103; 3248222580; 3835390401; 4022224774;
     264347078; 604807628; 770255983; 1249150122; 1555081692; 1996064986;
     2554220882; 2821834349; 2952996808; 3210313671; 3336571891; 3584528711;
     113926993; 338241895; 666307205; 773529912; 1294757372; 1396182291;
     1695183700; 1986661051; 2177026350; 2456956037; 2730485921; 2820302411;
     3259730800; 3345764771; 3516065817; 3600352804; 4094571909; 275423344;
     430227734; 506948616; 659060556; 883997877; 958139571; 1322822218;
     1537002063; 1747873779; 1955562222; 2024104815; 2227730452; 2361852424;
     2428436474; 2756734187; 3204031479; 3329325298].

(** Initial hash value. *)
Definition H256 : list Z :=
    [1779033703; 3144134277; 1013904242; 2773480762; 1359893119; 2600822924;
     528734635; 1541459225].

(** Padding: a one bit, zeros up to 56 mod 64, the bit length on 8 bytes. *)
Definition be_bytes (width : nat) (x : Z) : list Z :=
  map (fun i => Z.land (Z.shiftr x (8 * Z.of_nat i)) 255) (rev (seq 0 width)).

Definition pad (msg : list Z) : list Z :=
  let len := Z.of_nat (length msg) in
  msg ++ [128] ++ repeat 0 (Z.to_nat ((55 - len) mod 64)) ++ be_bytes 8 (8 * len).

(** Cut a list into pieces of [n] elements; [fuel] bounds the pieces. *)
Fixpoint chunks {A : Type} (n : nat) (fuel : nat) (l : list A) : list (list A) :=
  match fuel with
  | O => []
  | S fuel' =>
      match l with
      | [] => []
      | _ => firstn n l :: chunks n fuel' (skipn n l)
      end
  end.

Definition be_word (bs : list Z) : Z :=
  fold_left (fun acc b => acc * 256 + b) bs 0.

Definition words_of_block (block : list Z) : list Z :=
  map be_word (chunks 4 16 block).

(** Message schedule, kept newest first: [W_{t-1} :: W_{t-2} :: ...]. *)
Definition schedule_step (rw : list Z) : list Z :=
  add32 (add32 (add32 (ssig1 (nth 1 rw 0)) (nth 6 rw 0)) (ssig0 (nth 14 rw 0)))
        (nth 15 rw 0) :: rw.

Definition schedule (block_words : list Z) : list Z :=
  rev (Nat.iter 48 schedule_step (rev block_words)).

Record regs : Type :=
  Regs { ra : Z; rb : Z; rc : Z; rd : Z; re : Z; rf : Z; rg : Z; rh : Z }.

Definition round (s : regs) (kw : Z * Z) : regs :=
  let t1 := add32 (add32 (add32 (add32 (rh s) (bsig1 (re s))) (Ch (re s) (rf s) (rg s)))
                         (fst kw)) (snd kw) in
  let t2 := add32 (bsig0 (ra s)) (Maj (ra s) (rb s) (rc s)) in
  Regs (add32 t1 t2) (ra s) (rb s) (rc s) (add32 (rd s) t1) (re s) (rf s) (rg s).

Definition regs_of (h : list Z) : regs :=
  Regs (nth 0 h 0) (nth 1 h 0) (nth 2 h 0) (nth 3 h 0)
       (nth 4 h 0) (nth 5 h 0) (nth 6 h 0) (nth 7 h 0).

Definition list_of (s : regs) : list Z :=
  [ra s; rb s; rc s; rd s; re s; rf s; rg s; rh s].

Definition compress (h : list Z) (block : list Z) : list Z :=
  let w := schedule (words_of_block block) in
  let s := fold_left round (combine K256 w) (regs_of h) in
  map (fun p => add32 (fst p) (snd p)) (combine h (list_of s)).

Definition digest_Z (msg : list Z) : list Z :=
  let p := pad msg in
  flat_map (be_bytes 4) (fold_left compress (chunks 64 (length p) p) H256).

(** [hashlib.sha256(msg).digest()]. *)
Definition digest (msg : bytes) : bytes :=
  map byte_of_Z (digest_Z (map Z_of_byte msg)).

End SHA256.

(* ===================================================================== *)
(** * hmac.new(key, msg, hashlib.sha256) and hmac.compare_digest *)
(* ===================================================================== *)

Module HMAC.

Definition block_size : nat := 64.

Definition xor_pad (p : Z) (key : bytes) : bytes :=
  map (fun b => byte_of_Z (Z.lxor (Z_of_byte b) p)) key.

(** Keys longer than a block are hashed; the key is then padded with
    zero bytes to the block size. *)
Definition block_key (key : bytes) : bytes :=
  let k := if (block_size <? length key)%nat then SHA256.digest key else key in
  k ++ repeat x00 (block_size - length k).

Definition digest (key msg : bytes) : bytes :=
  let k := block_key key in
  SHA256.digest (xor_pad 92 k ++ SHA256.digest (xor_pad 54 k ++ msg)).

(** [hmac.new(key, msg, hashlib.sha256).hexdigest()]. *)
Definition hexdigest (key msg : bytes) : string := hex (digest key msg).

(** The constant-time comparison loop of [hmac.compare_digest]: the
    accumulator starts at 1 when the lengths differ (the right operand is
    then compared with itself), and ors in the xor of every pair. *)
Definition _tscmp (a b : list N) : bool :=
  let same := (length a =? length b)%nat in
  let left := if same then a else b in
  let start := if same then 0%N else 1%N in
  N.eqb (fold_left (fun acc p => N.lor acc (N.lxor (fst p) (snd p)))
                   (combine left b) start) 0%N.

(** [hmac.compare_digest(a, b)] on two str: non-ASCII operands are refused
    with a TypeError. *)
Definition compare_digest (a b : string) : result bool :=
  if is_ascii a && is_ascii b then Ok (_tscmp (codes a) (codes b))
  else Raise (PyErr TypeError
                "comparing strings with non-ASCII characters is not supported").

End HMAC.

(* ===================================================================== *)
(** * hashlib.md5 (RFC 1321) *)
(* ===================================================================== *)

Module MD5.

Definition wrap32 (x : Z) : Z := x mod 4294967296.

Definition add32 (x y : Z) : Z := wrap32 (x + y).

Definition not32 (x : Z) : Z := Z.lxor x 4294967295.

Definition rotl (n x : Z) : Z :=
  Z.lor (wrap32 (Z.shiftl x n)) (Z.shiftr x (32 - n)).

(** Per-round shift amounts. *)
Definition shifts : list Z :=
  let four (a b c d : Z) := [a; b; c; d; a; b; c; d; a; b; c; d; a; b; c; d] in
  four 7 12 17 22 ++ four 5 9 14 20 ++ four 4 11 16 23 ++ four 6 10 15 21.

(** Sine table: floor(2^32 * abs(sin(i + 1))), in decimal. *)
Definition sines : list Z :=
    [3614090360; 3905402710; 606105819; 3250441966; 4118548399; 1200080426;
     2821735955; 4249261313; 1770035416; 2336552879; 4294925233; 2304563134;
     1804603682; 4254626195; 2792965006; 1236535329; 4129170786; 3225465664;
     643717713; 3921069994; 3593408605; 38016083; 3634488961; 3889429448;
     568446438; 3275163606; 4107603335; 1163531501; 2850285829; 4243563512;
     1735328473; 2368359562; 4294588738; 2272392833; 1839030562; 4259657740;
     2763975236; 1272893353; 4139469664; 3200236656; 681279174; 3936430074;
     3572445317; 76029189; 3654602809; 3873151461; 530742520; 3299628645;
     4096336452; 1126891415; 2878612391; 4237533241; 1700485571; 2399980690;
     4293915773; 2240044497; 1873313359; 4264355552; 2734768916; 1309151649;
     4149444226; 3174756917; 718787259; 3951481745].

Definition init : list Z := [1732584193; 4023233417; 2562383102; 271733878].

Definition le_bytes (width : nat) (x : Z) : list Z :=
  map (fun i => Z.land (Z.shiftr x (8 * Z.of_nat i)) 255) (seq 0 width).

Definition le_word (bs : list Z) : Z :=
  fold_right (fun b acc => acc * 256 + b) 0 bs.

Definition pad (msg : list Z) : list Z :=
  let len := Z.of_nat (length msg) in
  msg ++ [128] ++ repeat 0 (Z.to_nat ((55 - len) mod 64)) ++ le_bytes 8 (8 * len).

Record regs : Type := Regs { ra : Z; rb : Z; rc : Z; rd : Z }.

(** One of the sixty-four operations; [i] is its index. *)
Definition step (m : list Z) (s : regs) (i : nat) : regs :=
  let zi := Z.of_nat i in
  let '(f, g) :=
    if zi <? 16 then
      (Z.lor (Z.land (rb s) (rc s)) (Z.land (not32 (rb s)) (rd s)), zi)
    else if zi <? 32 then
      (Z.lor (Z.land (rd s) (rb s)) (Z.land (not32 (rd s)) (rc s)), (5 * zi + 1) mod 16)
    else if zi <? 48 then
      (Z.lxor (Z.lxor (rb s) (rc s)) (rd s), (3 * zi + 5) mod 16)
    else
      (Z.lxor (rc s) (Z.lor (rb s) (not32 (rd s))), (7 * zi) mod 16) in
  let f' := add32 (add32 (add32 f (ra s)) (nth i sines 0)) (nth (Z.to_nat g) m 0) in
  Regs (rd s) (add32 (rb s) (rotl (nth i shifts 0) f')) (rb s) (rc s).

Definition compress (h : list Z) (block : list Z) : list Z :=
  let m := map le_word (SHA256.chunks 4 16 block) in
  let s0 := Regs (nth 0 h 0) (nth 1 h 0) (nth 2 h 0) (nth 3 h 0) in
  let s := fold_left (step m) (seq 0 64) s0 in
  map (fun p => add32 (fst p) (snd p)) (combine h [ra s; rb s; rc s; rd s]).

Definition digest_Z (msg : list Z) : list Z :=
  let p := pad msg in
  flat_map (le_bytes 4) (fold_left compress (SHA256.chunks 64 (length p) p) init).

(** [hashlib.md5(msg).digest()]. *)
Definition digest (msg : bytes) : bytes :=
  map byte_of_Z (digest_Z (map Z_of_byte msg)).

End MD5.

(* ===================================================================== *)
(** * JSON values, json.dumps, repr and str *)
(* ===================================================================== *)

(** A decoded JSON document.  A [JDict] keeps its entries in insertion
    order, as a Python dict does; a dict built by Python has no repeated
    key ([wf_json]).  Floats are not modelled. *)
Inductive json : Type :=
| JNull
| JBool (b : bool)
| JInt (n : Z)
| JStr (s : string)
| JList (items : list json)
| JDict (entries : list (string * json)).

Definition dq : ascii := ascii_of_N 34.
Definition backslash : ascii := ascii_of_N 92.

Definition chars (s : string) : list ascii := list_ascii_of_string s.

(** [str(n)] for an int. *)
Definition str_of_Z (n : Z) : string :=
  DecimalString.NilZero.string_of_int (Z.to_int n).

Definition hex2 (n : N) : list ascii :=
  [hex_digit (Z.shiftr (Z.of_N n) 4); hex_digit (Z.land (Z.of_N n) 15)].

(** json's [py_encode_basestring_ascii] on one character. *)
Definition escape_ascii (c : ascii) : list ascii :=
  let n := code c in
  if (n =? 34)%N then chars "\" ++ [dq]
  else if (n =? 92)%N then chars "\\"
  else if (n =? 10)%N then chars "\n"
  else if (n =? 13)%N then chars "\r"
  else if (n =? 9)%N then chars "\t"
  else if (n =? 12)%N then chars "\f"
  else if (n =? 8)%N then chars "\b"
  else if ((n <? 32) || (126 <? n))%N then chars "\u00" ++ hex2 n
  else [c].

Definition encode_basestring_ascii (s : string) : string :=
  string_of_list_ascii ([dq] ++ flat_map escape_ascii (chars s) ++ [dq]).

(** [dict.get(key)] on the entries of a dict. *)
Fixpoint dict_get {V : Type} (entries : list (string * V)) (key : string) : option V :=
  match entries with
  | [] => None
  | (k, v) :: rest => if String.eqb k key then Some v else dict_get rest key
  end.

(** Stable insertion sort of dict items by key, in code point order: what
    [sorted(dct.items())] yields for str keys. *)
Fixpoint insert_item {V : Type} (kv : string * V) (l : list (string * V))
  : list (string * V) :=
  match l with
  | [] => [kv]
  | kv' :: l' =>
      if String.leb (fst kv) (fst kv') then kv :: l else kv' :: insert_item kv l'
  end.

Definition sort_items {V : Type} (l : list (string * V)) : list (string * V) :=
  fold_right insert_item [] l.

(** [json.dumps(j, sort_keys=sort_keys)] with the default separators and
    [ensure_ascii].  The values of a dict are printed before the items are
    ordered; the order looks at keys only, so this is the string Python
    builds by ordering first. *)
Fixpoint json_dumps (sort_keys : bool) (j : json) : string :=
  match j with
  | JNull => "null"
  | JBool true => "true"
  | JBool false => "false"
  | JInt n => str_of_Z n
  | JStr s => encode_basestring_ascii s
  | JList items =>
      "[" +:+ String.concat ", " (map (json_dumps sort_keys) items) +:+ "]"
  | JDict entries =>
      let printed :=
        map (fun kv => match kv with (k, v) => (k, json_dumps sort_keys v) end)
            entries in
      let ordered := if sort_keys then sort_items printed else printed in
      "{" +:+ String.concat ", "
                (map (fun kv => encode_basestring_ascii (fst kv) +:+ ": " +:+ snd kv)
                     ordered) +:+ "}"
  end.

(** [repr] of one character of a str delimited by [quote]. *)
Definition repr_char (quote : N) (c : ascii) : list ascii :=
  let n := code c in
  if ((n =? quote) || (n =? 92))%N then [backslash; c]
  else if (n =? 9)%N then chars "\t"
  else if (n =? 10)%N then chars "\n"
  else if (n =? 13)%N then chars "\r"
  else if ((n <? 32) || (n =? 127))%N then chars "\x" ++ hex2 n
  else if (n <? 127)%N then [c]
  else if ((n <=? 160) || (n =? 173))%N then chars "\x" ++ hex2 n
  else [c].

(** [repr(s)] for a str: single quotes, unless the string holds a single
    quote and no double quote. *)
Definition repr_str (s : string) : string :=
  let cs := chars s in
  let has q := existsb (fun c => (code c =? q)%N) cs in
  let quote := if has 39%N && negb (has 34%N) then 34%N else 39%N in
  string_of_list_ascii
    ([ascii_of_N quote] ++ flat_map (repr_char quote) cs ++ [ascii_of_N quote]).

Fixpoint py_repr (j : json) : string :=
  match j with
  | JNull => "None"
  | JBool true => "True"
  | JBool false => "False"
  | JInt n => str_of_Z n
  | JStr s => repr_str s
  | JList items => "[" +:+ String.concat ", " (map py_repr items) +:+ "]"
  | JDict entries =>
      "{" +:+ String.concat ", "
                (map (fun kv => match kv with
                                | (k, v) => repr_str k +:+ ": " +:+ py_repr v
                                end) entries) +:+ "}"
  end.

(** [str(j)]. *)
Definition py_str (j : json) : string :=
  match j with
  | JStr s => s
  | _ => py_repr j
  end.

(** [str(x)] for an Optional value, as an f-string formats it. *)
Definition str_of_opt (o : option string) : string :=
  match o with
  | Some s => s
  | None => "None"
  end.

Definition json_of_opt (o : option string) : json :=
  match o with
  | Some s => JStr s
  | None => JNull
  end.

Definition type_name (j : json) : string :=
  match j with
  | JNull => "NoneType"
  | JBool _ => "bool"
  | JInt _ => "int"
  | JStr _ => "str"
  | JList _ => "list"
  | JDict _ => "dict"
  end.

(** [bool(j)]. *)
Definition json_truthy (j : json) : bool :=
  match j with
  | JNull => false
  | JBool b => b
  | JInt n => negb (n =? 0)
  | JStr s => str_truthy s
  | JList [] => false
  | JList _ => true
  | JDict [] => false
  | JDict _ => true
  end.

(** [j.get(key, default)]: only a dict has the method. *)
Definition json_get (j : json) (key : string) (default : json) : result json :=
  match j with
  | JDict entries =>
      Ok (match dict_get entries key with Some v => v | None => default end)
  | _ => Raise (PyErr AttributeError
                  ("'" +:+ type_name j +:+ "' object has no attribute 'get'"))
  end.





(* ===================================================================== *)
(** * utils.py: CacheUtils.generate_cache_key *)
(* ===================================================================== *)

Module CacheUtils.

(** The arguments are JSON values: None, booleans, ints, strs, lists, and
    dicts with str keys.  For printable arguments the definitions below give
    what the code returns; on an argument that is not printable the code
    raises ValueError while it prints it. *)
Definition key_part (arg : json) : string :=
  match arg with
  | JDict _ => json_dumps true arg
  | _ => py_str arg
  end.

Definition generate_cache_key (args : list json) : string :=
  let key_parts := map key_part args in
  let combined := String.concat ":" key_parts in
  hex (MD5.digest (str_encode combined)).


End CacheUtils.

(* ===================================================================== *)
(** * main.py: the server object and its effects *)
(* ===================================================================== *)

Inductive LogLevel : Type := INFO | WARNING | ERROR.

Record LogRecord : Type := Log { level : LogLevel; message : string }.

(** The cache client.  [store] maps a key to its time-to-live in seconds
    and its value.  [faults] scripts the connection: each command consumes
    the head, and fails with ConnectionError when it is [true]; once the
    script is used up every command succeeds. *)
Record RedisClient : Type :=
  Redis { store : gmap string (Z * string); faults : list bool }.

(** [await redis_client.setex(key, ttl, value)]. *)
Definition setex (key : string) (ttl : Z) (value : string) (r : RedisClient)
  : RedisClient * result unit :=
  match faults r with
  | true :: rest =>
      (Redis (store r) rest, Raise (PyErr ConnectionError "Connection refused"))
  | false :: rest => (Redis (<[key := (ttl, value)]> (store r)) rest, Ok tt)
  | [] => (Redis (<[key := (ttl, value)]> (store r)) [], Ok tt)
  end.

(** class PRAutomationConfig(BaseModel). *)
Record PRAutomationConfig : Type := {
  auto_assign : bool;
  auto_label : bool;
  require_reviews : Z;
  protected_branches : list string;
  draft_on_wip : bool;
  close_stale_after_days : Z
}.

(** [PRAutomationConfig()]: every field at its declared default. *)
Definition PRAutomationConfig_default : PRAutomationConfig := {|
  auto_assign := true;
  auto_label := true;
  require_reviews := 2;
  protected_branches := ["main"; "master"; "production"];
  draft_on_wip := true;
  close_stale_after_days := 30
|}.

(** The fields of GitHubIntegrationMCPServer the modelled methods touch.
    [logger] is what was logged so far, [studio_client] the requests posted
    to the Studio backend so far, [utcnow] the ISO reading of the clock.
    The handler table [self.webhook_handlers] holds methods of the server
    and is passed beside it. *)
Record Server : Type := {
  webhook_secret : option string;
  redis_client : option RedisClient;
  pr_configs : gmap string PRAutomationConfig;
  logger : list LogRecord;
  studio_client : list (string * json);
  utcnow : string
}.

Definition set_redis (r : option RedisClient) (self : Server) : Server := {|
  webhook_secret := webhook_secret self;
  redis_client := r;
  pr_configs := pr_configs self;
  logger := logger self;
  studio_client := studio_client self;
  utcnow := utcnow self
|}.

Definition with_logs (ls : list LogRecord) (self : Server) : Server := {|
  webhook_secret := webhook_secret self;
  redis_client := redis_client self;
  pr_configs := pr_configs self;
  logger := logger self ++ ls;
  studio_client := studio_client self;
  utcnow := utcnow self
|}.

Definition add_log (l : LogRecord) (self : Server) : Server := with_logs [l] self.

(** [self'] is [self] with more lines in its log, and nothing else changed. *)
Definition only_logged (self self' : Server) : Prop :=
  exists ls : list LogRecord, self' = with_logs ls self.

Definition add_post (path : string) (body : json) (self : Server) : Server := {|
  webhook_secret := webhook_secret self;
  redis_client := redis_client self;
  pr_configs := pr_configs self;
  logger := logger self;
  studio_client := studio_client self ++ [(path, body)];
  utcnow := utcnow self
|}.

(** A method of the server: it reads and updates the server, and returns
    or raises. *)
Definition M (A : Type) : Type := Server -> Server * result A.

Definition ret {A : Type} (a : A) : M A := fun self => (self, Ok a).

Definition raise {A : Type} (e : exn) : M A := fun self => (self, Raise e).

Definition mbind {A B : Type} (m : M A) (k : A -> M B) : M B :=
  fun self =>
    match m self with
    | (self', Ok a) => k a self'
    | (self', Raise e) => (self', Raise e)
    end.

Definition lift {A : Type} (r : result A) : M A := fun self => (self, r).

(** [try: body  except Exception as e: handler(e)]. *)
Definition try_except {A : Type} (body : M A) (handler : exn -> M A) : M A :=
  fun self =>
    match body self with
    | (self', Ok a) => (self', Ok a)
    | (self', Raise e) =>
        if is_Exception e then handler e self' else (self', Raise e)
    end.

Notation "x <~ m ;; k" := (mbind m (fun x => k))
  (at level 100, m at next level, right associativity).
Notation "m ;;; k" := (mbind m (fun _ => k))
  (at level 100, right associativity).

Definition log (lvl : LogLevel) (msg : string) : M unit :=
  fun self => (add_log (Log lvl msg) self, Ok tt).

(** [await self.studio_client.post(path, json=body)]. *)
Definition studio_post (path : string) (body : json) : M unit :=
  fun self => (add_post path body self, Ok tt).

(* --------------------------------------------------------------------- *)
(** ** Webhook signature verification *)
(* --------------------------------------------------------------------- *)

(** The incoming request: its headers, its raw body, and the outcome of
    [await request.json()], the body decoded as JSON or the decoder's
    JSONDecodeError. *)
Record Request : Type := {
  headers : list (string * string);
  body : bytes;
  json_body : result json
}.

(** [request.headers.get(name)]; the names are written as the code
    writes them. *)
Definition headers_get (request : Request) (name : string) : option string :=
  dict_get (headers request) name.

Definition _verify_webhook_signature (self : Server) (request : Request)
    (signature : option string) : result bool :=
  match webhook_secret self, signature with
  | Some secret, Some sig =>
      if negb (str_truthy secret) || negb (str_truthy sig) then Ok false
      else
        let expected := HMAC.hexdigest (str_encode secret) (body request) in
        HMAC.compare_digest ("sha256=" +:+ expected) sig
  | _, _ => Ok false
  end.

(** A call of [_process_webhook] handed to [background_tasks.add_task]. *)
Record Task : Type := {
  task_event_type : option string;
  task_payload : json;
  task_delivery_id : option string
}.

(** POST /webhooks/github. *)
Definition github_webhook (self : Server) (request : Request)
    (background_tasks : list Task) : Server * list Task * result json :=
  let signature := headers_get request "X-Hub-Signature-256" in
  match _verify_webhook_signature self request signature with
  | Raise e => (self, background_tasks, Raise e)
  | Ok false =>
      (self, background_tasks, Raise (PyErr (HTTPException 401) "Invalid signature"))
  | Ok true =>
      let event_type := headers_get request "X-GitHub-Event" in
      let delivery_id := headers_get request "X-GitHub-Delivery" in
      match json_body request with
      | Raise e => (self, background_tasks, Raise e)
      | Ok payload =>
          (add_log (Log INFO ("Received webhook: " +:+ str_of_opt event_type +:+
                              " (delivery: " +:+ str_of_opt delivery_id +:+ ")")) self,
           background_tasks ++ [Build_Task event_type payload delivery_id],
           Ok (JDict [("status", JStr "accepted");
                      ("delivery_id", json_of_opt delivery_id)]))
      end
  end.

(* --------------------------------------------------------------------- *)
(** ** Webhook dispatch *)
(* --------------------------------------------------------------------- *)

(** An event handler: a method taking the payload. *)
Definition Handler : Type := json -> M unit.

(** The three event handlers the class defines; their bodies drive the
    GitHub API and are kept abstract. *)
Record Handlers : Type := {
  _handle_push_event : Handler;
  _handle_pr_event : Handler;
  _handle_issue_event : Handler
}.

(** [self.<name>] for the name of an event handler: the class defines
    the three above and no other. *)
Definition getattr_handler (h : Handlers) (name : string) : result Handler :=
  if String.eqb name "_handle_push_event" then Ok (_handle_push_event h)
  else if String.eqb name "_handle_pr_event" then Ok (_handle_pr_event h)
  else if String.eqb name "_handle_issue_event" then Ok (_handle_issue_event h)
  else Raise (PyErr AttributeError
                ("'GitHubIntegrationMCPServer' object has no attribute '"
                 +:+ name +:+ "'")).

(** A dict display [{key: self.<method>, ...}]: the attributes are looked
    up in the order written. *)
Fixpoint handler_table (h : Handlers) (entries : list (string * string))
  : result (list (string * Handler)) :=
  match entries with
  | [] => Ok []
  | (key, method) :: rest =>
      match getattr_handler h method with
      | Raise e => Raise e
      | Ok handler =>
          match handler_table h rest with
          | Raise e => Raise e
          | Ok table => Ok ((key, handler) :: table)
          end
      end
  end.

(** [_register_webhook_handlers()]: the table it would assign to
    [self.webhook_handlers], keyed by the values of the WebhookEvent
    members, or the exception that leaves it before the assignment. *)
Definition _register_webhook_handlers (h : Handlers)
  : result (list (string * Handler)) :=
  handler_table h
    [("push", "_handle_push_event");
     ("pull_request", "_handle_pr_event");
     ("issues", "_handle_issue_event");
     ("issue_comment", "_handle_comment_event");
     ("pull_request_review", "_handle_review_event");
     ("workflow_run", "_handle_workflow_event")].

(** [self.webhook_handlers] as [__init__] leaves it. *)
Definition webhook_handlers_init : list (string * Handler) := [].

(** [self.webhook_handlers.get(event_type)]; an absent header gives the
    key None, which no entry has. *)
Definition handlers_get (webhook_handlers : list (string * Handler))
    (event_type : option string) : option Handler :=
  match event_type with
  | Some tag => dict_get webhook_handlers tag
  | None => None
  end.

(** The value stored for a delivery: [json.dumps] of its record. *)
Definition event_record (event_type : option string) (payload : json)
    (delivery_id : option string) (now : string) : string :=
  json_dumps false
    (JDict [("event_type", json_of_opt event_type);
            ("payload", payload);
            ("timestamp", JStr now);
            ("delivery_id", json_of_opt delivery_id)]).

Definition _store_webhook_event (event_type : option string) (payload : json)
    (delivery_id : option string) : M unit :=
  fun self =>
    match redis_client self with
    | Some r =>
        let key := "webhook:" +:+ str_of_opt delivery_id in
        let '(r', res) :=
          setex key 3600 (event_record event_type payload delivery_id (utcnow self)) r in
        (set_redis (Some r') self, res)
    | None => (self, Ok tt)
    end.

(** The value stored for a processing error. *)
Definition error_record (delivery_id : option string) (error now : string) : string :=
  json_dumps false
    (JDict [("delivery_id", json_of_opt delivery_id);
            ("error", JStr error);
            ("timestamp", JStr now)]).

Definition _store_webhook_error (delivery_id : option string) (error : string)
  : M unit :=
  fun self =>
    match redis_client self with
    | Some r =>
        let key := "webhook:error:" +:+ str_of_opt delivery_id in
        let '(r', res) :=
          setex key 86400 (error_record delivery_id error (utcnow self)) r in
        (set_redis (Some r') self, res)
    | None => (self, Ok tt)
    end.

(** No project is associated with any repository. *)
Definition _get_project_id_for_repo (owner name : json) : M (option string) :=
  ret None.

Definition _notify_studio_backend (event_type : option string) (payload : json)
  : M unit :=
  try_except
    (repository <~ lift (json_get payload "repository" (JDict [])) ;;
     owner <~ lift (json_get repository "owner" (JDict [])) ;;
     login <~ lift (json_get owner "login" JNull) ;;
     name <~ lift (json_get repository "name" JNull) ;;
     project_id <~ _get_project_id_for_repo login name ;;
     if opt_truthy project_id then
       fun self =>
         studio_post ("/api/projects/" +:+ str_of_opt project_id +:+ "/github-events")
           (JDict [("event_type", json_of_opt event_type);
                   ("payload", payload);
                   ("timestamp", JStr (utcnow self))]) self
     else ret tt)
    (fun e => log ERROR ("Error notifying Studio backend: " +:+ exn_str e)).

(** The [try] block of [_process_webhook]. *)
Definition _process_webhook_try (webhook_handlers : list (string * Handler))
    (event_type : option string) (payload : json) (delivery_id : option string)
  : M unit :=
  _store_webhook_event event_type payload delivery_id ;;;
  match handlers_get webhook_handlers event_type with
  | Some handler => handler payload
  | None => log WARNING ("No handler for webhook event: " +:+ str_of_opt event_type)
  end ;;;
  _notify_studio_backend event_type payload.

(** The message logged by the [except] block of [_process_webhook]. *)
Definition processing_error (delivery_id : option string) (e : exn) : string :=
  "Error processing webhook " +:+ str_of_opt delivery_id +:+ ": " +:+ exn_str e.

(** The [except Exception as e] block of [_process_webhook]. *)
Definition _process_webhook_except (delivery_id : option string) (e : exn) : M unit :=
  log ERROR (processing_error delivery_id e) ;;;
  _store_webhook_error delivery_id (exn_str e).

Definition _process_webhook (webhook_handlers : list (string * Handler))
    (event_type : option string) (payload : json) (delivery_id : option string)
  : M unit :=
  try_except
    (_process_webhook_try webhook_handlers event_type payload delivery_id)
    (_process_webhook_except delivery_id).

(* --------------------------------------------------------------------- *)
(** ** PR automation configuration *)
(* --------------------------------------------------------------------- *)

(** [str(repository.get("id"))]. *)
Definition repo_id_of (repository : list (string * json)) : string :=
  py_str (match dict_get repository "id" with Some v => v | None => JNull end).

Definition _get_pr_config (repository : list (string * json)) : M PRAutomationConfig :=
  fun self =>
    let repo_id := repo_id_of repository in
    match pr_configs self !! repo_id with
    | Some config => (self, Ok config)
    | None => (self, Ok PRAutomationConfig_default)
    end.

(* --------------------------------------------------------------------- *)
(** ** Metrics aggregation *)
(* --------------------------------------------------------------------- *)

(** What the loop of [_analyze_pr_metrics] reads from a pull request.
    Datetimes are microseconds since the epoch; [comments] and [reviews]
    are [pr.get_comments().totalCount] and [pr.get_reviews().totalCount].
    Averages are exact rationals: the rounding of floats is left out. *)
Record PullRequest : Type := {
  created_at : Z;
  merged : bool;
  merged_at : option Z;
  state : string;
  user_login : string;
  comments : Z;
  reviews : Z;
  additions : Z;
  deletions : Z;
  labels : list string
}.

Record PRMetrics : Type := {
  total_prs : Z;
  merged_prs : Z;
  open_prs : Z;
  closed_without_merge : Z;
  avg_merge_time_hours : Q;
  avg_review_time_hours : Q;
  avg_comments : Q;
  avg_changes : Q;
  top_contributors : list (string * Z);
  label_distribution : list (string * Z);
  daily_activity : list (string * Z)
}.

(** The dict [pr_metrics] as the loop starts. *)
Definition pr_metrics_init : PRMetrics := {|
  total_prs := 0;
  merged_prs := 0;
  open_prs := 0;
  closed_without_merge := 0;
  avg_merge_time_hours := 0%Q;
  avg_review_time_hours := 0%Q;
  avg_comments := 0%Q;
  avg_changes := 0%Q;
  top_contributors := [];
  label_distribution := [];
  daily_activity := []
|}.

(** The loop state: the metrics dict and the four sample lists. *)
Record Accum : Type := {
  pr_metrics : PRMetrics;
  merge_times : list Q;
  review_times : list Q;
  comment_counts : list Z;
  change_counts : list Z
}.

Definition accum_init : Accum := {|
  pr_metrics := pr_metrics_init;
  merge_times := [];
  review_times := [];
  comment_counts := [];
  change_counts := []
|}.

(** [d[k] = d.get(k, 0) + 1]: a new key goes last. *)
Fixpoint dict_incr (d : list (string * Z)) (k : string) : list (string * Z) :=
  match d with
  | [] => [(k, 1)]
  | (k', n) :: rest =>
      if String.eqb k' k then (k', n + 1) :: rest else (k', n) :: dict_incr rest k
  end.

Definition in_list (x : string) (l : list string) : bool :=
  existsb (String.eqb x) l.

Definition usec_per_hour : positive := 3600000000.
Definition usec_per_day : Z := 86400000000.

(** The body of the loop, past the window test. *)
Definition account (metrics : list string) (acc : Accum) (pr : PullRequest) : Accum :=
  let m := pr_metrics acc in
  let is_open := negb (merged pr) && String.eqb (state pr) "open" in
  let is_closed := negb (merged pr) && negb (String.eqb (state pr) "open") in
  {| pr_metrics := {|
       total_prs := total_prs m + 1;
       merged_prs := if merged pr then merged_prs m + 1 else merged_prs m;
       open_prs := if is_open then open_prs m + 1 else open_prs m;
       closed_without_merge :=
         if is_closed then closed_without_merge m + 1 else closed_without_merge m;
       avg_merge_time_hours := avg_merge_time_hours m;
       avg_review_time_hours := avg_review_time_hours m;
       avg_comments := avg_comments m;
       avg_changes := avg_changes m;
       top_contributors := dict_incr (top_contributors m) (user_login pr);
       label_distribution := fold_left dict_incr (labels pr) (label_distribution m);
       daily_activity := daily_activity m
     |};
     merge_times :=
       match merged pr, merged_at pr with
       | true, Some t => merge_times acc ++ [Qmake (t - created_at pr) usec_per_hour]
       | _, _ => merge_times acc
       end;
     review_times := review_times acc;
     comment_counts :=
       if in_list "comments" metrics
       then comment_counts acc ++ [comments pr + reviews pr]
       else comment_counts acc;
     change_counts :=
       if in_list "changes" metrics && merged pr
       then change_counts acc ++ [additions pr + deletions pr]
       else change_counts acc
  |}.

(** [for pr in prs: if pr.created_at < start_date: break; ...]. *)
Fixpoint scan (start_date : Z) (metrics : list string) (prs : list PullRequest)
    (acc : Accum) : Accum :=
  match prs with
  | [] => acc
  | pr :: rest =>
      if created_at pr <? start_date then acc
      else scan start_date metrics rest (account metrics acc pr)
  end.

Definition Qsum (l : list Q) : Q := fold_left Qplus l 0%Q.
Definition Zsum (l : list Z) : Z := fold_left Z.add l 0.

(** The means the code computes as floats are exact quotients here: a
    value the code rounds can differ from its quotient in the last place. *)
Definition Qmean (l : list Q) : Q := (Qsum l / inject_Z (Z.of_nat (length l)))%Q.
Definition Zmean (l : list Z) : Q :=
  (inject_Z (Zsum l) / inject_Z (Z.of_nat (length l)))%Q.

Definition nonempty {A : Type} (l : list A) : bool :=
  match l with
  | [] => false
  | _ :: _ => true
  end.

(** Stable insertion by decreasing count: what
    [sorted(items, key=lambda x: x[1], reverse=True)] yields. *)
Fixpoint insert_desc (kv : string * Z) (l : list (string * Z)) : list (string * Z) :=
  match l with
  | [] => [kv]
  | kv' :: l' =>
      if snd kv' <=? snd kv then kv :: l else kv' :: insert_desc kv l'
  end.

Definition sort_desc (l : list (string * Z)) : list (string * Z) :=
  fold_right insert_desc [] l.

(** The averages and the ten top contributors, after the loop. *)
Definition finish (acc : Accum) : PRMetrics :=
  let m := pr_metrics acc in
  {| total_prs := total_prs m;
     merged_prs := merged_prs m;
     open_prs := open_prs m;
     closed_without_merge := closed_without_merge m;
     avg_merge_time_hours :=
       if nonempty (merge_times acc) then Qmean (merge_times acc)
       else avg_merge_time_hours m;
     avg_review_time_hours := avg_review_time_hours m;
     avg_comments :=
       if nonempty (comment_counts acc) then Zmean (comment_counts acc)
       else avg_comments m;
     avg_changes :=
       if nonempty (change_counts acc) then Zmean (change_counts acc)
       else avg_changes m;
     top_contributors := firstn 10 (sort_desc (top_contributors m));
     label_distribution := label_distribution m;
     daily_activity := daily_activity m
  |}.

(** One insight line, by the numbers its text is formatted from. *)
Inductive Insight : Type :=
| MergeRate (rate : Q) (merged_count total : Z)
| AvgMergeHours (hours : Q)
| AvgMergeDays (days : Q)
| AvgComments (n : Q)
| TopContributor (login : string) (contributions : Z)
| HighOpenPRs (n : Z).

Definition Qltb (a b : Q) : bool := negb (Qle_bool b a).

Definition _generate_pr_insights (metrics : PRMetrics) : list Insight :=
  (if 0 <? total_prs metrics
   then [MergeRate (inject_Z (merged_prs metrics) / inject_Z (total_prs metrics) * 100)%Q
                   (merged_prs metrics) (total_prs metrics)]
   else []) ++
  (if Qltb 0 (avg_merge_time_hours metrics)
   then if Qltb (avg_merge_time_hours metrics) 24
        then [AvgMergeHours (avg_merge_time_hours metrics)]
        else [AvgMergeDays (avg_merge_time_hours metrics / 24)%Q]
   else []) ++
  (if Qltb 0 (avg_comments metrics) then [AvgComments (avg_comments metrics)] else []) ++
  (match top_contributors metrics with
   | (top_contributor, contributions) :: _ =>
       [TopContributor top_contributor contributions]
   | [] => []
   end) ++
  (if 10 <? open_prs metrics then [HighOpenPRs (open_prs metrics)] else []).

(** The arguments dict of the tool call; a field is None when its key is
    absent. *)
Record MetricsArguments : Type := {
  arg_project_id : option string;
  arg_timeframe_days : option Z;
  arg_metrics : option (list string)
}.

(** A repository object of the GitHub client:
    [repo.get_pulls(state="all", sort="created", direction="desc")], the
    pull requests by decreasing creation date. *)
Record Repository : Type := {
  get_pulls : result (list PullRequest)
}.

(** The remote services of one call: the clock, in microseconds since
    1970-01-01, the Studio lookup [_get_project_info], and
    [self.github_client.get_repo_by_id(int(repo_id))], the repository or
    the failure of [int] or of the client. *)
Record Remote : Type := {
  utcnow_usec : Z;
  _get_project_info : string -> result json;
  get_repo_by_id : json -> result Repository
}.

(** [datetime.min] and [datetime.max], in microseconds since 1970-01-01. *)
Definition datetime_min : Z := -62135596800000000.
Definition datetime_max : Z := 253402300799999999.

(** [timedelta(days=days)] for an int: the number of days must fit a C int
    and have a magnitude of at most 999999999. *)
Definition timedelta (days : Z) : result Z :=
  if (days <? - 2 ^ 31) || (2 ^ 31 <=? days)
  then Raise (PyErr OverflowError "Python int too large to convert to C int")
  else if 999999999 <? Z.abs days
  then Raise (PyErr OverflowError
                ("days=" +:+ str_of_Z days +:+ "; must have magnitude <= 999999999"))
  else Ok days.

(** [t - delta] for a datetime [t] and a timedelta of [delta] days: the
    result must lie between [datetime.min] and [datetime.max]. *)
Definition datetime_sub (t delta : Z) : result Z :=
  let r := t - delta * usec_per_day in
  if (datetime_min <=? r) && (r <=? datetime_max) then Ok r
  else Raise (PyErr OverflowError "date value out of range").

(** [end_date - timedelta(days=timeframe_days)]. *)
Definition window_start (end_date timeframe_days : Z) : result Z :=
  match timedelta timeframe_days with
  | Raise e => Raise e
  | Ok delta => datetime_sub end_date delta
  end.

Inductive Response : Type :=
| Success (metrics : PRMetrics) (insights : list Insight)
          (start_date end_date days : Z)
| Failure (error : string).

(** The aggregation proper: loop, averages, insights. *)
Definition aggregate (start_date : Z) (metrics : list string)
    (prs : list PullRequest) : PRMetrics * list Insight :=
  let m := finish (scan start_date metrics prs accum_init) in
  (m, _generate_pr_insights m).

Definition _analyze_pr_metrics (remote : Remote) (arguments : MetricsArguments)
  : M Response :=
  try_except
    (project_id <~ lift (match arg_project_id arguments with
                         | Some p => Ok p
                         | None => Raise (PyErr KeyError "'project_id'")
                         end) ;;
     let timeframe_days :=
       match arg_timeframe_days arguments with Some d => d | None => 30 end in
     let metrics :=
       match arg_metrics arguments with
       | Some l => l
       | None => ["merge_time"; "review_time"; "comments"; "changes"]
       end in
     project <~ lift (_get_project_info remote project_id) ;;
     repo_id <~ lift (json_get project "githubRepoId" JNull) ;;
     if negb (json_truthy repo_id)
     then ret (Failure "Project not connected to GitHub")
     else
       repo <~ lift (get_repo_by_id remote repo_id) ;;
       let end_date := utcnow_usec remote in
       start_date <~ lift (window_start end_date timeframe_days) ;;
       prs <~ lift (get_pulls repo) ;;
       let '(m, insights) := aggregate start_date metrics prs in
       ret (Success m insights start_date end_date timeframe_days))
    (fun e =>
       log ERROR ("Error analyzing PR metrics: " +:+ exn_str e) ;;;
       ret (Failure (exn_str e))).

(* --------------------------------------------------------------------- *)
(** ** Signature mutation *)
(* --------------------------------------------------------------------- *)

(** The character [c] with bit [k] of its code point flipped. *)
Definition flip_bit (k : N) (c : ascii) : ascii :=
  ascii_of_N (N.lxor (code c) (2 ^ k)).

(** The string [s] with bit [k] of its character number [i] flipped. *)
Fixpoint mutate (i : nat) (k : N) (s : string) : string :=
  match s with
  | EmptyString => EmptyString
  | String c s' =>
      match i with
      | O => String (flip_bit k c) s'
      | S i' => String c (mutate i' k s')
      end
  end.

(** The signature GitHub sends for [body] under [secret]. *)
Definition valid_signature (secret : string) (body : bytes) : string :=
  "sha256=" +:+ HMAC.hexdigest (str_encode secret) body.

(* ===================================================================== *)
(** * More of the Python runtime: str.lower, substring tests, regex classes *)
(* ===================================================================== *)

Definition in_range (lo hi n : N) : bool := ((lo <=? n) && (n <=? hi))%N.

(** [c.lower()] for a code point below 256: A-Z and the capital letters
    of Latin-1 (U+00C0 to U+00DE, the multiplication sign apart) move 32
    places up; no other character changes. *)
Definition char_lower (c : ascii) : ascii :=
  let n := code c in
  if in_range 65 90 n || (in_range 192 222 n && negb (n =? 215)%N)
  then ascii_of_N (n + 32)
  else c.

(** [s.lower()] for a str of code points below 256, where it works
    character by character; above 255 one character can lower-case to
    two. *)
Fixpoint lower (s : string) : string :=
  match s with
  | EmptyString => EmptyString
  | String c s' => String (char_lower c) (lower s')
  end.

(** [s.startswith(prefix)]. *)
Fixpoint startswith (s prefix : string) {struct prefix} : bool :=
  match prefix with
  | EmptyString => true
  | String p prefix' =>
      match s with
      | EmptyString => false
      | String c s' => Ascii.eqb c p && startswith s' prefix'
      end
  end.

(** [needle in hay] for two str. *)
Fixpoint contains (needle hay : string) : bool :=
  startswith hay needle ||
  match hay with
  | EmptyString => false
  | String _ hay' => contains needle hay'
  end.

(** The class [\w] of [re] on str patterns, below 256: letters, digits,
    other numeric characters and the underscore. *)
Definition is_word (c : ascii) : bool :=
  let n := code c in
  in_range 48 57 n || in_range 65 90 n || (n =? 95)%N || in_range 97 122 n ||
  (n =? 170)%N || in_range 178 179 n || (n =? 181)%N || in_range 185 186 n ||
  in_range 188 190 n || in_range 192 214 n || in_range 216 246 n ||
  in_range 248 255 n.

(** The class [\s] of [re] on str patterns, below 256. *)
Definition is_space (c : ascii) : bool :=
  let n := code c in
  in_range 9 13 n || in_range 28 32 n || (n =? 133)%N || (n =? 160)%N.

Definition hyphen : ascii := ascii_of_N 45.
Definition at_sign : ascii := ascii_of_N 64.

Definition is_hyphen (c : ascii) : bool := Ascii.eqb c hyphen.

Fixpoint take_while {A : Type} (p : A -> bool) (l : list A) : list A :=
  match l with
  | [] => []
  | x :: l' => if p x then x :: take_while p l' else []
  end.

Fixpoint drop_while {A : Type} (p : A -> bool) (l : list A) : list A :=
  match l with
  | [] => []
  | x :: l' => if p x then drop_while p l' else l
  end.

(* ===================================================================== *)
(** * utils.py: GitHubUtils and LabelUtils *)
(* ===================================================================== *)

Module LabelUtils.

(** The class attribute COLORS. *)
Definition COLORS : list (string * string) :=
  [("bug", "d73a4a");
   ("documentation", "0075ca");
   ("duplicate", "cfd3d7");
   ("enhancement", "a2eeef");
   ("feature", "7057ff");
   ("good first issue", "7057ff");
   ("help wanted", "008672");
   ("invalid", "e4e669");
   ("question", "d876e3");
   ("wontfix", "ffffff");
   ("critical", "ff0000");
   ("high", "ff6600");
   ("medium", "ffaa00");
   ("low", "ffdd00");
   ("size/XS", "00ff00");
   ("size/S", "33ff33");
   ("size/M", "ffff00");
   ("size/L", "ff9900");
   ("size/XL", "ff0000")].

(** [any(keyword in text for keyword in keywords)]. *)
Definition any_in (keywords : list string) (text : string) : bool :=
  existsb (fun keyword => contains keyword text) keywords.

(** The list [suggestions] before duplicates and existing labels are
    removed. *)
Definition raw_suggestions (text : string) : list string :=
  let text_lower := lower text in
  (if any_in ["bug"; "error"; "issue"; "problem"; "broken"; "fix"; "crash"] text_lower
   then ["bug"] else []) ++
  (if any_in ["feature"; "enhancement"; "add"; "implement"; "new"] text_lower
   then ["enhancement"] else []) ++
  (if any_in ["docs"; "documentation"; "readme"; "guide"; "tutorial"] text_lower
   then ["documentation"] else []) ++
  (if any_in ["urgent"; "critical"; "asap"; "production"] text_lower
   then ["critical"]
   else if any_in ["important"; "high priority"] text_lower
        then ["high"] else []) ++
  (if any_in ["good first issue"; "beginner"; "easy"] text_lower
   then ["good first issue"] else []).

(** [suggest_labels(text, existing_labels)].  The code returns
    [list(set(suggestions) - set(existing_labels))], a list without
    repetition whose order is that of a set of str: it is modelled by the
    set of its elements.  [existing_labels or []] reads None as no label. *)
Definition suggest_labels (text : string) (existing_labels : option (list string))
  : gset string :=
  let existing := match existing_labels with Some l => l | None => [] end in
  list_to_set (raw_suggestions text) ∖ list_to_set existing.

(** The branch of [categorize_labels] a label takes. *)
Definition category_of (label : string) : string :=
  let label_lower := lower label in
  if in_list label_lower
       ["bug"; "feature"; "enhancement"; "documentation"; "test"; "refactor"]
  then "type"
  else if in_list label_lower ["critical"; "high"; "medium"; "low"]
  then "priority"
  else if in_list label_lower ["in-progress"; "blocked"; "ready"; "review-needed"]
  then "status"
  else if in_list label_lower
            ["frontend"; "backend"; "api"; "database"; "ui"; "infrastructure"]
  then "component"
  else if startswith label_lower "size/"
  then "size"
  else "other".

(** [categories[key].append(label)]. *)
Fixpoint dict_append (categories : list (string * list string)) (key label : string)
  : list (string * list string) :=
  match categories with
  | [] => []
  | (k, v) :: rest =>
      if String.eqb k key then (k, v ++ [label]) :: rest
      else (k, v) :: dict_append rest key label
  end.

Definition categories_init : list (string * list string) :=
  [("type", []); ("priority", []); ("status", []); ("component", []);
   ("size", []); ("other", [])].

Definition categorize_labels (labels : list string) : list (string * list string) :=
  let categories :=
    fold_left (fun categories label => dict_append categories (category_of label) label)
              labels categories_init in
  List.filter (fun kv => nonempty (snd kv)) categories.

End LabelUtils.

Module GitHubUtils.

Definition calculate_pr_size (additions deletions : Z) : string :=
  let total := additions + deletions in
  if total <? 10 then "XS"
  else if total <? 50 then "S"
  else if total <? 250 then "M"
  else if total <? 1000 then "L"
  else "XL".

(** The sizes, smallest first, as the docstring lists them. *)
Definition sizes : list string := ["XS"; "S"; "M"; "L"; "XL"].

(** The position of a size in [sizes]. *)
Definition size_rank (size : string) : nat :=
  length (take_while (fun s => negb (String.eqb s size)) sizes).

(** [re.sub(r'[-\s]+', '-', ...)]: every maximal run of hyphens and
    white space becomes one hyphen.  [in_run] tells that the previous
    character belonged to a run. *)
Fixpoint collapse (in_run : bool) (l : list ascii) : list ascii :=
  match l with
  | [] => []
  | c :: l' =>
      if is_hyphen c || is_space c
      then if in_run then collapse true l' else hyphen :: collapse true l'
      else c :: collapse false l'
  end.

(** [s.rstrip('-')]. *)
Definition rstrip_hyphen (l : list ascii) : list ascii :=
  rev (drop_while is_hyphen (rev l)).

(** The variable [clean_title] of [generate_branch_name], as a list of
    characters. *)
Definition clean_title (issue_title : string) : list ascii :=
  let kept :=
    List.filter (fun c => is_word c || is_space c || is_hyphen c)
                (chars (lower issue_title)) in
  rstrip_hyphen (firstn 50 (collapse false kept)).

Definition generate_branch_name (issue_title : string) (issue_number : Z)
    (prefix : string) : string :=
  prefix +:+ "/" +:+ str_of_Z issue_number +:+ "-" +:+
  string_of_list_ascii (clean_title issue_title).

End GitHubUtils.

(* ===================================================================== *)
(** * main.py: helpers, triage, configuration and tool dispatch *)
(* ===================================================================== *)

Definition _is_wip_pr (title : string) : bool :=
  let wip_markers := ["wip"; "work in progress"; "draft"; "[wip]"; "[draft]"] in
  existsb (fun marker => contains marker (lower title)) wip_markers.

(** The pattern [agent:\s*@?(\w+)] tried at the head of [l]: the literal,
    the longest run of white space, an optional at sign, and the longest
    run of word characters, which must not be empty.  The group is that
    run. *)
Definition agent_match_at (l : list ascii) : option (list ascii) :=
  if startswith (string_of_list_ascii l) "agent:" then
    let after_space := drop_while is_space (skipn 6 l) in
    let after_at :=
      match after_space with
      | c :: rest => if Ascii.eqb c at_sign then rest else after_space
      | [] => after_space
      end in
    match take_while is_word after_at with
    | [] => None
    | name => Some name
    end
  else None.

(** [re.search]: the match at the leftmost position that has one. *)
Fixpoint agent_search (l : list ascii) : option (list ascii) :=
  match agent_match_at l with
  | Some name => Some name
  | None =>
      match l with
      | [] => None
      | _ :: l' => agent_search l'
      end
  end.

(** [_extract_agent_assignment(body)]: the value of "agent_name" in the
    returned dict, or None. *)
Definition _extract_agent_assignment (body : string) : option string :=
  option_map string_of_list_ascii (agent_search (chars (lower body))).

(** [j.lower()]: only a str has the method. *)
Definition json_lower (j : json) : result string :=
  match j with
  | JStr s => Ok (lower s)
  | _ => Raise (PyErr AttributeError
                  ("'" +:+ type_name j +:+ "' object has no attribute 'lower'"))
  end.

(** The dict [_triage_issue] returns. *)
Record Triage : Type := {
  triage_labels : list string;
  triage_priority : string;
  suggested_agent : option string
}.

(** [any(word in title or word in body for word in words)]. *)
Definition mentions (words : list string) (title body : string) : bool :=
  existsb (fun word => contains word title || contains word body) words.

(** [_triage_issue(issue)]; the method reads nothing of the server. *)
Definition _triage_issue (issue : list (string * json)) : result Triage :=
  match json_lower (match dict_get issue "title" with Some v => v | None => JStr "" end)
  with
  | Raise e => Raise e
  | Ok title =>
      match json_lower (match dict_get issue "body" with Some v => v | None => JStr "" end)
      with
      | Raise e => Raise e
      | Ok body =>
          Ok (if mentions ["bug"; "error"; "crash"; "fail"] title body
              then Build_Triage ["bug"] "high" None
              else if mentions ["feature"; "enhancement"; "improve"] title body
              then Build_Triage ["enhancement"] "medium" None
              else if mentions ["question"; "help"; "how"] title body
              then Build_Triage ["question"] "low" None
              else Build_Triage [] "medium" None)
      end
  end.

(** [d[key]] on the entries of a dict. *)
Definition dict_item (entries : list (string * json)) (key : string) : result json :=
  match dict_get entries key with
  | Some v => Ok v
  | None => Raise (PyErr KeyError (repr_str key))
  end.

Definition _create_task_for_pr (repository pr : list (string * json)) : M unit :=
  try_except
    (owner <~ lift (json_get (JDict repository) "owner" (JDict [])) ;;
     login <~ lift (json_get owner "login" JNull) ;;
     name <~ lift (json_get (JDict repository) "name" JNull) ;;
     project_id <~ _get_project_id_for_repo login name ;;
     if opt_truthy project_id then
       title <~ lift (dict_item pr "title") ;;
       description <~ lift (json_get (JDict pr) "body" (JStr "")) ;;
       pr_id <~ lift (dict_item pr "id") ;;
       number <~ lift (dict_item pr "number") ;;
       studio_post "/api/tasks"
         (JDict [("title", JStr ("Review PR: " +:+ py_str title));
                 ("description", description);
                 ("projectId", json_of_opt project_id);
                 ("type", JStr "REVIEW");
                 ("status", JStr "IN_PROGRESS");
                 ("priority", JStr "MEDIUM");
                 ("githubPrId", pr_id);
                 ("githubPrNumber", number)])
     else ret tt)
    (fun e => log ERROR ("Error creating task for PR: " +:+ exn_str e)).

(* --------------------------------------------------------------------- *)
(** ** configure_pr_automation *)
(* --------------------------------------------------------------------- *)

Definition set_pr_configs (configs : gmap string PRAutomationConfig) (self : Server)
  : Server := {|
  webhook_secret := webhook_secret self;
  redis_client := redis_client self;
  pr_configs := configs;
  logger := logger self;
  studio_client := studio_client self;
  utcnow := utcnow self
|}.

(** The arguments dict of the tool call; a field is None when its key is
    absent. *)
Record AutomationArguments : Type := {
  cfg_project_id : option string;
  cfg_auto_assign : option bool;
  cfg_auto_label : option bool;
  cfg_require_reviews : option Z;
  cfg_protected_branches : option (list string);
  cfg_draft_on_wip : option bool
}.

(** [PRAutomationConfig(auto_assign=arguments.get("auto_assign", True), ...)]:
    the stale threshold is not among the keywords and keeps its default. *)
Definition config_of_arguments (arguments : AutomationArguments) : PRAutomationConfig := {|
  auto_assign := match cfg_auto_assign arguments with Some b => b | None => true end;
  auto_label := match cfg_auto_label arguments with Some b => b | None => true end;
  require_reviews :=
    match cfg_require_reviews arguments with Some n => n | None => 2 end;
  protected_branches :=
    match cfg_protected_branches arguments with
    | Some l => l
    | None => ["main"; "master"; "production"]
    end;
  draft_on_wip := match cfg_draft_on_wip arguments with Some b => b | None => true end;
  close_stale_after_days := 30
|}.

(** [config.dict()]. *)
Definition config_dict (config : PRAutomationConfig) : json :=
  JDict [("auto_assign", JBool (auto_assign config));
         ("auto_label", JBool (auto_label config));
         ("require_reviews", JInt (require_reviews config));
         ("protected_branches", JList (map JStr (protected_branches config)));
         ("draft_on_wip", JBool (draft_on_wip config));
         ("close_stale_after_days", JInt (close_stale_after_days config))].

Inductive ConfigResponse : Type :=
| Configured (config : PRAutomationConfig) (message : string)
| NotConfigured (error : string).

(** [self.pr_configs[repo_id] = config]. *)
Definition store_config (repo_id : string) (config : PRAutomationConfig) : M unit :=
  fun self => (set_pr_configs (<[repo_id := config]> (pr_configs self)) self, Ok tt).

(** [if self.redis_client: await self.redis_client.setex(...)], thirty
    days. *)
Definition persist_config (repo_id : string) (config : PRAutomationConfig) : M unit :=
  fun self =>
    match redis_client self with
    | Some r =>
        let '(r', res) :=
          setex ("pr:config:" +:+ repo_id) (86400 * 30)
                (json_dumps false (config_dict config)) r in
        (set_redis (Some r') self, res)
    | None => (self, Ok tt)
    end.

Definition _configure_pr_automation (remote : Remote) (arguments : AutomationArguments)
  : M ConfigResponse :=
  try_except
    (project_id <~ lift (match cfg_project_id arguments with
                         | Some p => Ok p
                         | None => Raise (PyErr KeyError "'project_id'")
                         end) ;;
     project <~ lift (_get_project_info remote project_id) ;;
     repo <~ lift (json_get project "githubRepoId" JNull) ;;
     if negb (json_truthy repo)
     then ret (NotConfigured "Project not connected to GitHub")
     else
       let config := config_of_arguments arguments in
       let repo_id := py_str repo in
       store_config repo_id config ;;;
       persist_config repo_id config ;;;
       ret (Configured config
              ("PR automation configured for project " +:+ project_id)))
    (fun e =>
       log ERROR ("Error configuring PR automation: " +:+ exn_str e) ;;;
       ret (NotConfigured (exn_str e))).

(* --------------------------------------------------------------------- *)
(** ** Connected repositories *)
(* --------------------------------------------------------------------- *)

(** An answer of the Studio API: its status code and the outcome of
    [response.json()]. *)
Record HttpResponse : Type := {
  status_code : Z;
  response_json : result json
}.

(** [for x in j]: a list yields its items, a dict its keys, a str its
    characters; nothing else can be iterated. *)
Definition py_iter (j : json) : result (list json) :=
  match j with
  | JList items => Ok items
  | JDict entries => Ok (map (fun kv => JStr (fst kv)) entries)
  | JStr s => Ok (map (fun c => JStr (String c EmptyString)) (chars s))
  | _ => Raise (PyErr TypeError ("'" +:+ type_name j +:+ "' object is not iterable"))
  end.

(** One turn of the loop: the entry appended for [project], if any. *)
Definition connected_repo (project : json) : result (option json) :=
  match project with
  | JDict entries =>
      let get key := match dict_get entries key with Some v => v | None => JNull end in
      if json_truthy (get "githubRepoId") then
        match dict_item entries "id" with
        | Raise e => Raise e
        | Ok project_id =>
            Ok (Some (JDict [("project_id", project_id);
                             ("repo_id", get "githubRepoId");
                             ("repo_name", get "githubRepoName");
                             ("owner", get "githubOwner");
                             ("connected_at", get "createdAt")]))
        end
      else Ok None
  | _ => Raise (PyErr AttributeError
                  ("'" +:+ type_name project +:+ "' object has no attribute 'get'"))
  end.

Fixpoint collect_repos (projects : list json) (repos : list json) : result (list json) :=
  match projects with
  | [] => Ok repos
  | project :: rest =>
      match connected_repo project with
      | Raise e => Raise e
      | Ok (Some repo) => collect_repos rest (repos ++ [repo])
      | Ok None => collect_repos rest repos
      end
  end.

(** [_get_connected_repositories()]; [answer] is the outcome of
    [await self.studio_client.get("/api/projects")]. *)
Definition _get_connected_repositories (answer : result HttpResponse) : M (list json) :=
  try_except
    (response <~ lift answer ;;
     if status_code response =? 200 then
       projects <~ lift (response_json response) ;;
       items <~ lift (py_iter projects) ;;
       lift (collect_repos items [])
     else ret [])
    (fun e =>
       log ERROR ("Error getting connected repositories: " +:+ exn_str e) ;;;
       ret []).

(* --------------------------------------------------------------------- *)
(** ** Tool dispatch *)
(* --------------------------------------------------------------------- *)

(** The methods GitHubIntegrationMCPServer has: its own and those of
    BaseMCPServer, DatabaseMixin and CacheMixin. *)
Definition server_methods : list string :=
  ["__init__"; "_register_resources"; "_register_tools"; "_register_prompts";
   "_setup_webhook_routes"; "_verify_webhook_signature"; "initialize";
   "_register_webhook_handlers"; "_load_configurations"; "_process_webhook";
   "_store_webhook_event"; "_notify_studio_backend"; "_handle_push_event";
   "_handle_pr_event"; "_handle_pr_opened"; "_handle_issue_event";
   "_handle_issue_opened"; "get_resource_content"; "call_tool_impl";
   "get_prompt_impl"; "_connect_repository"; "_create_issue_from_slack";
   "_create_automated_pr"; "_assign_agent_to_issue"; "_setup_webhooks";
   "_configure_pr_automation"; "_analyze_pr_metrics"; "_extract_issue_references";
   "_is_wip_pr"; "_extract_agent_assignment"; "_get_project_id_for_repo";
   "_get_pr_config"; "_enhance_issue_body_with_slack_context";
   "_generate_agent_assignment_comment"; "_generate_pr_insights";
   "_get_project_info"; "_get_task_info"; "_get_agent_info";
   "_enhance_pr_body_with_task"; "_add_agent_attribution"; "_find_task_for_issue";
   "_get_connected_repositories"; "_get_webhook_configurations";
   "_store_repo_config"; "_send_slack_confirmation"; "_triage_issue";
   "_apply_labels_to_issue"; "_create_task_for_issue"; "_create_task_for_pr";
   "_generate_pr_description_prompt"; "_generate_issue_triage_prompt";
   "_generate_code_review_prompt"; "_store_webhook_error"; "shutdown";
   "_setup_logging"; "_setup_middleware"; "_setup_routes"; "register_resource";
   "register_tool"; "register_prompt"; "startup"; "run";
   "init_database"; "close_database"; "init_cache"; "close_cache"].

(** [self.<name>] for a method name: the bound method, named by [name], or
    the AttributeError of a missing attribute. *)
Definition getattr_method (name : string) : result string :=
  if in_list name server_methods then Ok name
  else Raise (PyErr AttributeError
                ("'GitHubIntegrationMCPServer' object has no attribute '"
                 +:+ name +:+ "'")).

(** The dict display [tool_handlers = {...}]: the attributes are looked
    up in the order written. *)
Fixpoint build_handlers (table : list (string * string)) : result (list (string * string)) :=
  match table with
  | [] => Ok []
  | (tool, method) :: rest =>
      match getattr_method method with
      | Raise e => Raise e
      | Ok bound =>
          match build_handlers rest with
          | Raise e => Raise e
          | Ok built => Ok ((tool, bound) :: built)
          end
      end
  end.

Definition tool_table : list (string * string) :=
  [("connect_repository", "_connect_repository");
   ("create_issue_from_slack", "_create_issue_from_slack");
   ("create_automated_pr", "_create_automated_pr");
   ("manage_pr_reviewers", "_manage_pr_reviewers");
   ("assign_agent_to_issue", "_assign_agent_to_issue");
   ("configure_pr_automation", "_configure_pr_automation");
   ("setup_webhooks", "_setup_webhooks");
   ("analyze_pr_metrics", "_analyze_pr_metrics")].

(** [call_tool_impl(tool_name, arguments)]; [invoke] runs the method of
    the given name on the arguments. *)
Definition call_tool_impl (invoke : string -> json -> M json)
    (tool_name : string) (arguments : json) : M json :=
  tool_handlers <~ lift (build_handlers tool_table) ;;
  match dict_get tool_handlers tool_name with
  | Some handler => invoke handler arguments
  | None => ret (JDict [("error", JStr ("Tool " +:+ tool_name +:+ " not implemented"))])
  end.

(* --------------------------------------------------------------------- *)
(** ** Fixtures: the values of the test suite *)
(* --------------------------------------------------------------------- *)

Definition test_secret : string := "test-secret".

Definition test_server : Server := {|
  webhook_secret := Some test_secret;
  redis_client := None;
  pr_configs := ∅;
  logger := [];
  studio_client := [];
  utcnow := "2024-01-01T00:00:00"
|}.

Definition test_payload : json := JDict [("test", JStr "data")].

(** [json.dumps({"test": "data"}).encode()]. *)
Definition test_body : bytes := str_encode (json_dumps false test_payload).

Definition request_with (signature : string) (content : bytes)
    (payload : result json) : Request := {|
  headers := [("X-Hub-Signature-256", signature);
              ("X-GitHub-Event", "push");
              ("X-GitHub-Delivery", "12345")];
  body := content;
  json_body := payload
|}.

Definition test_request : Request :=
  request_with (valid_signature test_secret test_body) test_body (Ok test_payload).

(** A correctly signed request whose body is the text [not json]. *)
Definition not_json : bytes := str_encode "not json".

Definition json_decode_error : exn :=
  PyErr JSONDecodeError "Expecting value: line 1 column 1 (char 0)".

Definition not_json_request : Request :=
  request_with (valid_signature test_secret not_json) not_json
               (Raise json_decode_error).

(** Handlers that do nothing, and handlers that fail as
    [_handle_push_event] does on a payload without "repository". *)
Definition quiet : Handler := fun _ => ret tt.

Definition quiet_handlers : Handlers := {|
  _handle_push_event := quiet;
  _handle_pr_event := quiet;
  _handle_issue_event := quiet
|}.

Definition key_error : exn := PyErr KeyError "'repository'".

Definition failing : Handler := fun _ => raise key_error.

Definition failing_handlers : Handlers := {|
  _handle_push_event := failing;
  _handle_pr_event := failing;
  _handle_issue_event := failing
|}.

(** A table over the three handlers the class defines. *)
Definition defined_handlers (h : Handlers) : list (string * Handler) :=
  [("push", _handle_push_event h);
   ("pull_request", _handle_pr_event h);
   ("issues", _handle_issue_event h)].

(** The test server with a cache client: an empty cache whose connection
    follows the script [faults]. *)
Definition cached_server (script : list bool) : Server :=
  set_redis (Some (Redis ∅ script)) test_server.

(** A signature made of one non-ASCII character, U+00E9. *)
Definition latin1_signature : string := String (ascii_of_N 233) EmptyString.

Definition non_ascii_error : exn :=
  PyErr TypeError "comparing strings with non-ASCII characters is not supported".

(** The repository of the test payloads, and a server holding a
    configuration for another repository. *)
Definition test_repository : list (string * json) :=
  [("id", JInt 123); ("full_name", JStr "test/repo")].

Definition strict_config : PRAutomationConfig := {|
  auto_assign := false;
  auto_label := false;
  require_reviews := 1;
  protected_branches := ["main"];
  draft_on_wip := false;
  close_stale_after_days := 7
|}.

Definition configured_server : Server := {|
  webhook_secret := Some test_secret;
  redis_client := None;
  pr_configs := {["456" := strict_config]};
  logger := [];
  studio_client := [];
  utcnow := "2024-01-01T00:00:00"
|}.

(** A connected project whose repository has no pull request. *)
Definition test_project : json :=
  JDict [("id", JStr "proj-123"); ("githubRepoId", JStr "123")].

Definition empty_remote : Remote := {|
  utcnow_usec := 1704067200000000;
  _get_project_info := fun _ => Ok test_project;
  get_repo_by_id := fun _ => Ok {| get_pulls := Ok [] |}
|}.

Definition test_arguments : MetricsArguments := {|
  arg_project_id := Some "proj-123";
  arg_timeframe_days := Some 30;
  arg_metrics := Some ["merge_time"; "comments"; "changes"]
|}.

(** The same call over a window of a million days, which starts before
    the year 1. *)
Definition long_arguments : MetricsArguments := {|
  arg_project_id := Some "proj-123";
  arg_timeframe_days := Some 1000000;
  arg_metrics := Some ["merge_time"; "comments"; "changes"]
|}.

(** Pull requests created at the given time; the second is merged. *)
Definition open_pr (created : Z) (login : string) : PullRequest := {|
  created_at := created;
  merged := false;
  merged_at := None;
  state := "open";
  user_login := login;
  comments := 2;
  reviews := 1;
  additions := 100;
  deletions := 50;
  labels := ["bug"]
|}.

Definition merged_pr (created : Z) (login : string) : PullRequest := {|
  created_at := created;
  merged := true;
  merged_at := Some (created + 7200000000);
  state := "closed";
  user_login := login;
  comments := 4;
  reviews := 2;
  additions := 10;
  deletions := 5;
  labels := ["feature"; "bug"]
|}.

(** Two argument lists that differ by the insertion order of dict keys,
    at the top of the dict and inside it. *)
Definition ordered_args : list json :=
  [JStr "repo"; JInt 42;
   JDict [("b", JInt 2);
          ("a", JDict [("y", JList [JInt 1; JNull]); ("x", JBool true)])]].

Definition reordered_args : list json :=
  [JStr "repo"; JInt 42;
   JDict [("a", JDict [("x", JBool true); ("y", JList [JInt 1; JNull])]);
          ("b", JInt 2)]].



(* --------------------------------------------------------------------- *)
(** ** Notions and values used by the further properties *)
(* --------------------------------------------------------------------- *)

(** The keys of [categories], in the order of the dict. *)
Definition category_names : list string :=
  ["type"; "priority"; "status"; "component"; "size"; "other"].

(** The labels of one category, in the order given. *)
Definition labels_of (category : string) (labels : list string) : list string :=
  List.filter (fun label => String.eqb (LabelUtils.category_of label) category) labels.

(** No two hyphens follow one another. *)
Fixpoint single_hyphens (l : list ascii) : bool :=
  match l with
  | [] => true
  | c :: l' =>
      match l' with
      | [] => true
      | c' :: _ => negb (is_hyphen c && is_hyphen c') && single_hyphens l'
      end
  end.

(** The three states of a pull request add up to the total. *)
Definition counts_agree (m : PRMetrics) : Prop :=
  merged_prs m + open_prs m + closed_without_merge m = total_prs m.

(** Order of the contributors: by decreasing number of pull requests. *)
Definition by_count_desc (a b : string * Z) : Prop := snd b <= snd a.

(** The pull request is inside the window that starts at [start_date]. *)
Definition in_window (start_date : Z) (pr : PullRequest) : bool :=
  negb (created_at pr <? start_date).

(** The value of a key is a str, or the key is absent. *)
Definition is_text (o : option json) : bool :=
  match o with
  | None => true
  | Some (JStr _) => true
  | Some _ => false
  end.

(** The cache client, if any, accepts the next command. *)
Definition cache_accepts (self : Server) : Prop :=
  match redis_client self with
  | Some r => hd false (faults r) = false
  | None => True
  end.

(** Every failure of the remote services derives from Exception. *)
Definition remote_fails_softly (remote : Remote) : Prop :=
  (forall project_id e,
     _get_project_info remote project_id = Raise e -> is_Exception e = true) /\
  (forall repo_id e, get_repo_by_id remote repo_id = Raise e -> is_Exception e = true) /\
  (forall repo_id repo e,
     get_repo_by_id remote repo_id = Ok repo -> get_pulls repo = Raise e ->
     is_Exception e = true).

Definition null_body_issue : list (string * json) :=
  [("number", JInt 7); ("title", JStr "Crash on start"); ("body", JNull)].

Definition plain_issue : list (string * json) :=
  [("number", JInt 8); ("title", JStr "How to configure?"); ("body", JStr "")].

Definition strict_arguments : AutomationArguments := {|
  cfg_project_id := Some "proj-123";
  cfg_auto_assign := Some false;
  cfg_auto_label := None;
  cfg_require_reviews := Some 1;
  cfg_protected_branches := Some ["main"];
  cfg_draft_on_wip := None
|}.

Definition unconnected_remote : Remote := {|
  utcnow_usec := 1704067200000000;
  _get_project_info := fun _ => Ok (JDict [("id", JStr "proj-123")]);
  get_repo_by_id := fun _ => Ok {| get_pulls := Ok [] |}
|}.

Definition failing_remote : Remote := {|
  utcnow_usec := 1704067200000000;
  _get_project_info := fun _ => Ok test_project;
  get_repo_by_id :=
    fun _ => Ok {| get_pulls := Raise (PyErr RuntimeError "rate limit exceeded") |}
|}.

Definition projects_answer (projects : json) : result HttpResponse :=
  Ok {| status_code := 200; response_json := Ok projects |}.

Definition connected_project : json :=
  JDict [("id", JStr "p1"); ("githubRepoId", JStr "123");
         ("githubRepoName", JStr "repo")].

Definition nameless_project : json := JDict [("githubRepoId", JStr "456")].


(** A request that carries no signature header. *)
Definition unsigned_request : Request := {|
  headers := [("X-GitHub-Event", "push"); ("X-GitHub-Delivery", "12345")];
  body := test_body;
  json_body := Ok test_payload
|}.

(* --------------------------------------------------------------------- *)
(** ** Notions used by the proofs *)
(* --------------------------------------------------------------------- *)




(* ===================================================================== *)
(** * Properties *)
(* ===================================================================== *)

(** ** Strings *)

Lemma chars_append (a b : string) : chars (a +:+ b) = chars a ++ chars b.
Proof.
  unfold chars. induction a as [|c a IH]; simpl; [reflexivity|].
  now rewrite IH.
Qed.

Lemma is_ascii_append (a b : string) :
  is_ascii (a +:+ b) = is_ascii a && is_ascii b.
Proof.
  unfold is_ascii. fold (chars (a +:+ b)) (chars a) (chars b).
  rewrite chars_append. apply forallb_app.
Qed.

Lemma hex_of_byte_ascii (b : byte) : forallb char_is_ascii (hex_of_byte b) = true.
Proof. destruct b; vm_compute; reflexivity. Qed.

Lemma is_ascii_hex (bs : bytes) : is_ascii (hex bs) = true.
Proof.
  unfold is_ascii, hex. rewrite list_ascii_of_string_of_list_ascii.
  induction bs as [|b bs IH]; cbn [flat_map]; [reflexivity|].
  rewrite forallb_app, IH, hex_of_byte_ascii. reflexivity.
Qed.

Lemma is_ascii_valid_signature (secret : string) (body : bytes) :
  is_ascii (valid_signature secret body) = true.
Proof.
  unfold valid_signature, HMAC.hexdigest.
  rewrite is_ascii_append, is_ascii_hex. reflexivity.
Qed.

Lemma codes_inj (a b : string) : codes a = codes b -> a = b.
Proof.
  unfold codes, code. revert b.
  induction a as [|c a IH]; intros [|d b] H; simpl in H; try discriminate.
  - reflexivity.
  - injection H as Hc Hr.
    rewrite <- (ascii_N_embedding c), <- (ascii_N_embedding d), Hc.
    f_equal. now apply IH.
Qed.

(** ** The constant-time comparison decides equality *)

Lemma fold_lor_zero (l : list (N * N)) (acc : N) :
  fold_left (fun acc p => N.lor acc (N.lxor (fst p) (snd p))) l acc = 0%N <->
  acc = 0%N /\ Forall (fun p => fst p = snd p) l.
Proof.
  revert acc. induction l as [|[x y] l IH]; intros acc; simpl.
  - split; [intros ->; split; [reflexivity | constructor] | intros [-> _]; reflexivity].
  - rewrite IH, N.lor_eq_0_iff. split.
    + intros [[-> Hxy] Hl]. split; [reflexivity|].
      constructor; [simpl; now apply N.lxor_eq | exact Hl].
    + intros [-> Hl]. inversion Hl as [|? ? Hxy Hl']; subst. simpl in Hxy. subst.
      rewrite N.lxor_nilpotent. repeat split. exact Hl'.
Qed.

Lemma combine_diag_eq (a b : list N) :
  length a = length b ->
  Forall (fun p => fst p = snd p) (combine a b) -> a = b.
Proof.
  revert b. induction a as [|x a IH]; intros [|y b] Hlen H; simpl in *;
    try discriminate; [reflexivity|].
  inversion H as [|? ? Hxy Hl]; subst. simpl in Hxy. subst.
  f_equal. apply IH; [congruence | exact Hl].
Qed.

Lemma combine_diag_refl (a : list N) :
  Forall (fun p => fst p = snd p) (combine a a).
Proof. induction a; simpl; constructor; auto. Qed.

Lemma _tscmp_spec (a b : list N) : HMAC._tscmp a b = true <-> a = b.
Proof.
  unfold HMAC._tscmp. rewrite N.eqb_eq, fold_lor_zero.
  destruct (Nat.eqb_spec (length a) (length b)) as [Hlen|Hlen].
  - split.
    + intros [_ H]. now apply combine_diag_eq.
    + intros ->. split; [reflexivity | apply combine_diag_refl].
  - split.
    + intros [H _]. discriminate.
    + intros ->. now elim Hlen.
Qed.

Lemma compare_digest_ascii (a b : string) :
  is_ascii a = true -> is_ascii b = true ->
  HMAC.compare_digest a b = Ok (String.eqb a b).
Proof.
  intros Ha Hb. unfold HMAC.compare_digest. rewrite Ha, Hb. simpl. f_equal.
  destruct (String.eqb_spec a b) as [->|Hne].
  - now apply _tscmp_spec.
  - destruct (HMAC._tscmp (codes a) (codes b)) eqn:E; [|reflexivity].
    apply _tscmp_spec, codes_inj in E. contradiction.
Qed.

Lemma compare_digest_non_ascii (a b : string) :
  is_ascii b = false ->
  HMAC.compare_digest a b =
  Raise (PyErr TypeError "comparing strings with non-ASCII characters is not supported").
Proof.
  intros Hb. unfold HMAC.compare_digest. rewrite Hb, andb_false_r. reflexivity.
Qed.

(** The function, case by case. *)
Lemma verify_unfold (self : Server) (request : Request) (secret sig : string) :
  webhook_secret self = Some secret ->
  str_truthy secret = true -> str_truthy sig = true ->
  _verify_webhook_signature self request (Some sig) =
  HMAC.compare_digest (valid_signature secret (body request)) sig.
Proof.
  intros Hs Ht Hg. unfold _verify_webhook_signature. rewrite Hs, Ht, Hg. reflexivity.
Qed.

(** ** Webhook signature verification *)

(** C1: with a non-empty secret S and any body B, the signature
    "sha256=" followed by the lowercase hexadecimal HMAC-SHA256 of B under
    S is accepted: [_verify_webhook_signature] returns True. *)
Theorem verify_accepts_valid_signature
    (self : Server) (request : Request) (secret : string) :
  webhook_secret self = Some secret ->
  str_truthy secret = true ->
  _verify_webhook_signature self request
    (Some ("sha256=" +:+ HMAC.hexdigest (str_encode secret) (body request)))
  = Ok true.
Proof.
  intros Hs Ht.
  change ("sha256=" +:+ HMAC.hexdigest (str_encode secret) (body request))
    with (valid_signature secret (body request)).
  rewrite (verify_unfold self request secret _ Hs Ht) by reflexivity.
  rewrite compare_digest_ascii by apply is_ascii_valid_signature.
  now rewrite String.eqb_refl.
Qed.

Lemma verify_accepts_valid_signature_witness :
  _verify_webhook_signature test_server test_request
    (Some ("sha256=" +:+ HMAC.hexdigest (str_encode test_secret) test_body))
  = Ok true.
Proof.
  exact (verify_accepts_valid_signature test_server test_request test_secret
           eq_refl eq_refl).
Defined.

(** The scenario of the test suite, computed: the signature of the body
    under "test-secret" is accepted and "sha256=invalid" is rejected. *)
Example verify_test_scenario :
  HMAC.hexdigest (str_encode test_secret) test_body
    = "b4820cec871eff53285edfbf9e7cd0081e8e5cca759fa3b0453d9023489421a3" /\
  _verify_webhook_signature test_server test_request
    (headers_get test_request "X-Hub-Signature-256") = Ok true /\
  _verify_webhook_signature test_server test_request (Some "sha256=invalid")
    = Ok false.
Proof. vm_compute. repeat split. Qed.

(** *** Flipping one bit *)

Lemma flip_bit_low (c : ascii) (k : N) :
  char_is_ascii c = true -> (k < 7)%N ->
  char_is_ascii (flip_bit k c) = true /\ flip_bit k c <> c.
Proof.
  intros Hc Hk.
  assert (Hcases : k = 0%N \/ k = 1%N \/ k = 2%N \/ k = 3%N \/ k = 4%N \/
                   k = 5%N \/ k = 6%N) by lia.
  destruct c as [[] [] [] [] [] [] [] []]; vm_compute in Hc; try discriminate Hc;
    decompose [or] Hcases; subst k; split;
    solve [vm_compute; reflexivity | vm_compute; discriminate].
Qed.

Lemma flip_bit_high (c : ascii) :
  char_is_ascii c = true -> char_is_ascii (flip_bit 7 c) = false.
Proof.
  intros Hc.
  destruct c as [[] [] [] [] [] [] [] []]; vm_compute in Hc; try discriminate Hc;
    vm_compute; reflexivity.
Qed.

Lemma is_ascii_cons (c : ascii) (s : string) :
  is_ascii (String c s) = char_is_ascii c && is_ascii s.
Proof. reflexivity. Qed.

Lemma mutate_truthy (i : nat) (k : N) (s : string) :
  (i < String.length s)%nat -> str_truthy (mutate i k s) = true.
Proof. destruct s, i; simpl; intros H; solve [lia | reflexivity]. Qed.

Lemma mutate_low (i : nat) (k : N) (s : string) :
  (i < String.length s)%nat -> is_ascii s = true -> (k < 7)%N ->
  is_ascii (mutate i k s) = true /\ mutate i k s <> s.
Proof.
  revert i. induction s as [|c s IH]; intros i Hi Hs Hk; simpl in Hi; [lia|].
  rewrite is_ascii_cons in Hs. apply andb_true_iff in Hs as [Hc Hs].
  destruct i as [|i]; simpl mutate; rewrite is_ascii_cons.
  - destruct (flip_bit_low c k Hc Hk) as [Hf Hne].
    rewrite Hf, Hs. split; [reflexivity | congruence].
  - destruct (IH i ltac:(lia) Hs Hk) as [Hm Hne].
    rewrite Hc, Hm. split; [reflexivity | congruence].
Qed.

Lemma mutate_high (i : nat) (s : string) :
  (i < String.length s)%nat -> is_ascii s = true ->
  is_ascii (mutate i 7 s) = false.
Proof.
  revert i. induction s as [|c s IH]; intros i Hi Hs; simpl in Hi; [lia|].
  rewrite is_ascii_cons in Hs. apply andb_true_iff in Hs as [Hc Hs].
  destruct i as [|i]; simpl mutate; rewrite is_ascii_cons.
  - now rewrite (flip_bit_high c Hc).
  - rewrite (IH i ltac:(lia) Hs). apply andb_false_r.
Qed.

(** C2, as the code has it: flip one bit of one character of the valid
    signature.  If the bit is one of the seven low bits the mutated
    signature is still ASCII and the function returns False; if it is bit 7
    the character leaves ASCII, [hmac.compare_digest] raises TypeError and
    so does the function.  In neither case is the signature accepted. *)
Theorem verify_bit_flip
    (self : Server) (request : Request) (secret : string) (i : nat) (k : N) :
  webhook_secret self = Some secret ->
  str_truthy secret = true ->
  (i < String.length (valid_signature secret (body request)))%nat ->
  (k < 8)%N ->
  _verify_webhook_signature self request
    (Some (mutate i k (valid_signature secret (body request))))
  = if (k <? 7)%N then Ok false else Raise non_ascii_error.
Proof.
  intros Hs Ht Hi Hk.
  pose proof (is_ascii_valid_signature secret (body request)) as Hv.
  rewrite (verify_unfold self request secret _ Hs Ht) by now apply mutate_truthy.
  destruct (N.ltb_spec k 7) as [Hlow|Hhigh].
  - destruct (mutate_low i k _ Hi Hv Hlow) as [Hm Hne].
    rewrite compare_digest_ascii by assumption.
    f_equal. apply String.eqb_neq. congruence.
  - assert (k = 7%N) as -> by lia.
    apply compare_digest_non_ascii. now apply mutate_high.
Qed.

Lemma verify_bit_flip_witness :
  _verify_webhook_signature test_server test_request
    (Some (mutate 10 0 (valid_signature test_secret test_body))) = Ok false /\
  _verify_webhook_signature test_server test_request
    (Some (mutate 10 7 (valid_signature test_secret test_body)))
    = Raise non_ascii_error.
Proof.
  split.
  - exact (verify_bit_flip test_server test_request test_secret 10 0
             eq_refl eq_refl ltac:(vm_compute; lia) ltac:(lia)).
  - exact (verify_bit_flip test_server test_request test_secret 10 7
             eq_refl eq_refl ltac:(vm_compute; lia) ltac:(lia)).
Defined.

(** C2 as stated fails: flipping bit 7 of the first character of the valid
    signature makes the function raise TypeError instead of returning
    False. *)
Lemma verify_bit_flip_raises :
  _verify_webhook_signature test_server test_request
    (Some (mutate 0 7 (valid_signature test_secret test_body)))
  = Raise non_ascii_error.
Proof. vm_compute. reflexivity. Qed.

(** C3, as the code has it, for a secret of code points below 256 (which
    [str.encode] always encodes): the function returns False, whatever the
    request, when the secret or the signature is absent or empty; it
    returns a boolean whenever the signature is made of ASCII characters;
    and with a non-empty secret it raises TypeError on a non-empty
    signature holding a non-ASCII character. *)
Theorem verify_total_on_ascii
    (self : Server) (request : Request) (signature : option string) :
  (opt_truthy (webhook_secret self) && opt_truthy signature = false ->
   forall request' : Request,
     _verify_webhook_signature self request' signature = Ok false) /\
  ((forall sig, signature = Some sig -> is_ascii sig = true) ->
   exists b : bool, _verify_webhook_signature self request signature = Ok b) /\
  (forall sig, opt_truthy (webhook_secret self) = true ->
     signature = Some sig -> is_ascii sig = false ->
     _verify_webhook_signature self request signature = Raise non_ascii_error).
Proof.
  unfold _verify_webhook_signature.
  destruct (webhook_secret self) as [secret|], signature as [sig|]; simpl;
    repeat split; intros; try discriminate; eauto.
  - destruct (str_truthy secret), (str_truthy sig); simpl in *;
      congruence.
  - destruct (negb (str_truthy secret) || negb (str_truthy sig)); [eauto|].
    rewrite compare_digest_ascii; eauto using is_ascii_valid_signature.
  - match goal with H : Some _ = Some _ |- _ => injection H as <- end.
    match goal with H : str_truthy secret = true |- _ => rewrite H end.
    assert (str_truthy sig = true) as ->.
    { destruct sig; [discriminate | reflexivity]. }
    simpl. now apply compare_digest_non_ascii.
Qed.

Lemma verify_total_on_ascii_witness :
  _verify_webhook_signature test_server test_request None = Ok false /\
  (exists b : bool,
     _verify_webhook_signature test_server test_request (Some "sha256=invalid")
     = Ok b) /\
  _verify_webhook_signature test_server test_request (Some latin1_signature)
  = Raise non_ascii_error.
Proof.
  pose proof (verify_total_on_ascii test_server test_request None) as [H1 _].
  pose proof (verify_total_on_ascii test_server test_request (Some "sha256=invalid"))
    as [_ [H2 _]].
  pose proof (verify_total_on_ascii test_server test_request (Some latin1_signature))
    as [_ [_ H3]].
  split; [exact (H1 eq_refl test_request)|].
  split.
  - apply H2. intros sig [= <-]. reflexivity.
  - exact (H3 latin1_signature eq_refl eq_refl eq_refl).
Defined.

(** C3 as stated fails: with the secret "test-secret" and the one-character
    signature U+00E9, the function raises TypeError, it does not return. *)
Lemma verify_raises_on_non_ascii :
  _verify_webhook_signature test_server test_request (Some latin1_signature)
  = Raise non_ascii_error.
Proof. vm_compute. reflexivity. Qed.

(** ** The webhook endpoint *)

(** C5, as the code has it: when verification returns False the endpoint
    answers 401 and schedules nothing; when it returns True and the body
    decodes as JSON the endpoint schedules one processing task and answers
    with status "accepted" and the X-GitHub-Delivery header as delivery id. *)
Theorem github_webhook_responses
    (self : Server) (request : Request) (background_tasks : list Task) :
  (_verify_webhook_signature self request
     (headers_get request "X-Hub-Signature-256") = Ok false ->
   github_webhook self request background_tasks =
   (self, background_tasks, Raise (PyErr (HTTPException 401) "Invalid signature")))
  /\
  (forall payload : json,
     _verify_webhook_signature self request
       (headers_get request "X-Hub-Signature-256") = Ok true ->
     json_body request = Ok payload ->
     snd (github_webhook self request background_tasks) =
       Ok (JDict [("status", JStr "accepted");
                  ("delivery_id",
                   json_of_opt (headers_get request "X-GitHub-Delivery"))]) /\
     snd (fst (github_webhook self request background_tasks)) =
       background_tasks ++
       [Build_Task (headers_get request "X-GitHub-Event") payload
                   (headers_get request "X-GitHub-Delivery")]).
Proof.
  unfold github_webhook. split.
  - intros ->. reflexivity.
  - intros payload -> ->. split; reflexivity.
Qed.

Lemma github_webhook_responses_witness :
  github_webhook test_server
    (request_with "sha256=invalid" test_body (Ok test_payload)) [] =
  (test_server, [], Raise (PyErr (HTTPException 401) "Invalid signature"))
  /\
  (snd (github_webhook test_server test_request []) =
     Ok (JDict [("status", JStr "accepted"); ("delivery_id", JStr "12345")]) /\
   snd (fst (github_webhook test_server test_request [])) =
     [Build_Task (Some "push") test_payload (Some "12345")]).
Proof.
  split.
  - apply (proj1 (github_webhook_responses test_server
             (request_with "sha256=invalid" test_body (Ok test_payload)) [])).
    vm_compute. reflexivity.
  - apply (proj2 (github_webhook_responses test_server test_request []) test_payload).
    + vm_compute. reflexivity.
    + reflexivity.
Defined.

(** C5 as stated fails: a request signed correctly whose body is not JSON
    passes verification, and the endpoint raises the decoder's error
    instead of answering "accepted". *)
Lemma github_webhook_not_json :
  _verify_webhook_signature test_server not_json_request
    (headers_get not_json_request "X-Hub-Signature-256") = Ok true /\
  github_webhook test_server not_json_request [] =
    (test_server, [], Raise json_decode_error).
Proof. vm_compute. split; reflexivity. Qed.

(** ** Dispatch *)

Lemma with_logs_nil (self : Server) : with_logs [] self = self.
Proof. destruct self. unfold with_logs. simpl. now rewrite app_nil_r. Qed.

Lemma with_logs_app (l1 l2 : list LogRecord) (self : Server) :
  with_logs l2 (with_logs l1 self) = with_logs (l1 ++ l2) self.
Proof. unfold with_logs. simpl. now rewrite app_assoc. Qed.

Lemma only_logged_refl (self : Server) : only_logged self self.
Proof. exists []. symmetry. apply with_logs_nil. Qed.

Lemma only_logged_trans (a b c : Server) :
  only_logged a b -> only_logged b c -> only_logged a c.
Proof.
  intros [l1 ->] [l2 ->]. exists (l1 ++ l2). apply with_logs_app.
Qed.

Lemma only_logged_add_log (l : LogRecord) (self : Server) :
  only_logged self (add_log l self).
Proof. now exists [l]. Qed.

Lemma json_get_is_Exception (j : json) (key : string) (default : json) (e : exn) :
  json_get j key default = Raise e -> is_Exception e = true.
Proof. destruct j; simpl; intros [= <-]; reflexivity. Qed.

(** Notifying the backend never raises and never posts: no project is
    associated with a repository. *)
Lemma notify_only_logs (event_type : option string) (payload : json) (self : Server) :
  exists self', _notify_studio_backend event_type payload self = (self', Ok tt) /\
                only_logged self self'.
Proof.
  unfold _notify_studio_backend, try_except, mbind, lift, _get_project_id_for_repo,
    ret, log.
  destruct (json_get payload "repository" (JDict [])) as [repository|e] eqn:E1.
  2: { rewrite (json_get_is_Exception _ _ _ _ E1). eauto using only_logged_add_log. }
  destruct (json_get repository "owner" (JDict [])) as [owner|e] eqn:E2.
  2: { rewrite (json_get_is_Exception _ _ _ _ E2). eauto using only_logged_add_log. }
  destruct (json_get owner "login" JNull) as [login|e] eqn:E3.
  2: { rewrite (json_get_is_Exception _ _ _ _ E3). eauto using only_logged_add_log. }
  destruct (json_get repository "name" JNull) as [name|e] eqn:E4.
  2: { rewrite (json_get_is_Exception _ _ _ _ E4). eauto using only_logged_add_log. }
  simpl. eauto using only_logged_refl.
Qed.

Lemma setex_accepts (key : string) (ttl : Z) (value : string) (r : RedisClient) :
  hd false (faults r) = false ->
  setex key ttl value r =
  (Redis (<[key := (ttl, value)]> (store r)) (tl (faults r)), Ok tt).
Proof.
  unfold setex. destruct (faults r) as [|[] rest]; simpl; intros H;
    solve [discriminate | reflexivity].
Qed.

(** Registering the handlers raises before it assigns the table: the
    fourth entry names a method the class does not define. *)
Lemma register_webhook_handlers_raises (h : Handlers) :
  _register_webhook_handlers h =
  Raise (PyErr AttributeError
           "'GitHubIntegrationMCPServer' object has no attribute '_handle_comment_event'").
Proof. reflexivity. Qed.

(** The [try] block on an event without handler. *)
Lemma process_try_unknown
    (webhook_handlers : list (string * Handler)) (event_type : option string)
    (payload : json) (delivery_id : option string) (self : Server) :
  handlers_get webhook_handlers event_type = None ->
  _process_webhook_try webhook_handlers event_type payload delivery_id self =
  _process_webhook_try [] event_type payload delivery_id self.
Proof.
  intros H. unfold _process_webhook_try, mbind. rewrite H.
  destruct event_type; reflexivity.
Qed.

(** C4, as the code has it: for an event type without handler, processing
    is what it is with an empty handler table (no handler runs); the
    missing handler is logged as a warning that names the event type; no
    request is posted and no configuration changes.  With no cache client
    nothing is written: past the warning the server only gains log lines.
    With a cache client that accepts the write, the delivery record is
    stored under "webhook:<delivery id>" for 3600 seconds, and past that
    write and the warning nothing changes but the log.  In both cases
    processing completes without raising. *)
Theorem unknown_event_effects
    (webhook_handlers : list (string * Handler)) (event_type : option string)
    (payload : json) (delivery_id : option string) (self : Server) :
  handlers_get webhook_handlers event_type = None ->
  _process_webhook webhook_handlers event_type payload delivery_id self =
  _process_webhook [] event_type payload delivery_id self /\
  (redis_client self = None ->
   snd (_process_webhook webhook_handlers event_type payload delivery_id self)
     = Ok tt /\
   only_logged
     (add_log (Log WARNING ("No handler for webhook event: "
                            +:+ str_of_opt event_type)) self)
     (fst (_process_webhook webhook_handlers event_type payload delivery_id self)))
  /\
  (forall r : RedisClient,
     redis_client self = Some r -> hd false (faults r) = false ->
     snd (_process_webhook webhook_handlers event_type payload delivery_id self)
       = Ok tt /\
     only_logged
       (add_log (Log WARNING ("No handler for webhook event: "
                              +:+ str_of_opt event_type))
          (set_redis
             (Some (Redis (<["webhook:" +:+ str_of_opt delivery_id :=
                              (3600, event_record event_type payload delivery_id
                                       (utcnow self))]> (store r))
                          (tl (faults r)))) self))
       (fst (_process_webhook webhook_handlers event_type payload delivery_id self))).
Proof.
  intros H. unfold _process_webhook, try_except.
  rewrite (process_try_unknown _ _ _ _ _ H).
  split; [reflexivity|].
  unfold _process_webhook_try, mbind, _store_webhook_event.
  assert (Hget : handlers_get [] event_type = None) by (destruct event_type; reflexivity).
  rewrite Hget. unfold log. split.
  - intros ->.
    destruct (notify_only_logs event_type payload
                (add_log (Log WARNING ("No handler for webhook event: "
                                       +:+ str_of_opt event_type)) self))
      as (s' & -> & Hs').
    simpl. split; [reflexivity | exact Hs'].
  - intros r -> Hr. rewrite (setex_accepts _ _ _ _ Hr).
    match goal with
    | |- context [_notify_studio_backend ?e ?p ?s] =>
        destruct (notify_only_logs e p s) as (s' & -> & Hs')
    end.
    simpl. split; [reflexivity | exact Hs'].
Qed.

Lemma unknown_event_effects_witness :
  (snd (_process_webhook webhook_handlers_init
          (Some "release") test_payload (Some "12345") test_server) = Ok tt /\
   only_logged
     (add_log (Log WARNING "No handler for webhook event: release") test_server)
     (fst (_process_webhook webhook_handlers_init
             (Some "release") test_payload (Some "12345") test_server)))
  /\
  snd (_process_webhook (defined_handlers failing_handlers)
         (Some "deployment") test_payload (Some "12345") (cached_server []))
  = Ok tt.
Proof.
  split.
  - exact (proj1 (proj2 (unknown_event_effects
                           webhook_handlers_init
                           (Some "release") test_payload (Some "12345") test_server
                           eq_refl)) eq_refl).
  - exact (proj1 (proj2 (proj2 (unknown_event_effects
                                  (defined_handlers failing_handlers)
                                  (Some "deployment") test_payload (Some "12345")
                                  (cached_server []) eq_refl))
                    (Redis ∅ []) eq_refl eq_refl)).
Defined.

(** C4 as stated fails: "release" has no handler, yet with a cache client
    the delivery is written to the cache, which was empty. *)
Lemma unknown_event_is_stored :
  handlers_get (defined_handlers quiet_handlers) (Some "release") = None /\
  redis_client (cached_server []) = Some (Redis ∅ []) /\
  redis_client
    (fst (_process_webhook (defined_handlers quiet_handlers)
            (Some "release") test_payload (Some "12345") (cached_server []))) =
  Some (Redis {["webhook:12345" :=
                  (3600, event_record (Some "release") test_payload (Some "12345")
                           (utcnow test_server))]} []).
Proof. repeat split. Qed.

(** C6, as the code has it: an exception derived from Exception that
    leaves the [try] block (storing the event, running the handler,
    notifying the backend) is caught and logged with the delivery id.  With
    no cache client nothing is recorded and [_process_webhook] returns;
    with a cache client that accepts the write, the error is recorded under
    "webhook:error:<delivery id>" for 86400 seconds and [_process_webhook]
    returns. *)
Theorem process_webhook_catches
    (webhook_handlers : list (string * Handler)) (event_type : option string)
    (payload : json) (delivery_id : option string) (self s1 : Server) (e : exn) :
  _process_webhook_try webhook_handlers event_type payload delivery_id self
    = (s1, Raise e) ->
  is_Exception e = true ->
  (redis_client s1 = None ->
   _process_webhook webhook_handlers event_type payload delivery_id self =
   (add_log (Log ERROR (processing_error delivery_id e)) s1, Ok tt))
  /\
  (forall r : RedisClient,
     redis_client s1 = Some r -> hd false (faults r) = false ->
     _process_webhook webhook_handlers event_type payload delivery_id self =
     (set_redis
        (Some (Redis (<["webhook:error:" +:+ str_of_opt delivery_id :=
                         (86400, error_record delivery_id (exn_str e) (utcnow s1))]>
                        (store r))
                     (tl (faults r))))
        (add_log (Log ERROR (processing_error delivery_id e)) s1),
      Ok tt)).
Proof.
  intros Htry He.
  unfold _process_webhook, try_except. rewrite Htry, He.
  unfold _process_webhook_except, mbind, log, _store_webhook_error. simpl.
  split.
  - intros ->. reflexivity.
  - intros r -> Hr. now rewrite (setex_accepts _ _ _ _ Hr).
Qed.

Lemma process_webhook_catches_witness :
  _process_webhook (defined_handlers failing_handlers)
    (Some "push") test_payload (Some "12345") test_server =
  (add_log (Log ERROR (processing_error (Some "12345") key_error)) test_server, Ok tt)
  /\
  snd (_process_webhook (defined_handlers failing_handlers)
         (Some "push") test_payload (Some "12345") (cached_server [])) = Ok tt.
Proof.
  split.
  - exact (proj1 (process_webhook_catches
                    (defined_handlers failing_handlers)
                    (Some "push") test_payload (Some "12345")
                    test_server test_server key_error eq_refl eq_refl) eq_refl).
  - rewrite (proj2 (process_webhook_catches
                      (defined_handlers failing_handlers)
                      (Some "push") test_payload (Some "12345")
                      (cached_server []) _ key_error eq_refl eq_refl)
               _ eq_refl eq_refl).
    reflexivity.
Defined.

(** C6 as stated fails, twice.  With no cache client the exception of a
    failing handler is caught and logged but no error record is written.
    With a cache client whose connection is down, storing the event raises,
    the [except] block raises again while storing the error, and the
    exception leaves [_process_webhook]. *)
Lemma process_webhook_unrecorded_or_raising :
  (snd (_process_webhook (defined_handlers failing_handlers)
          (Some "push") test_payload (Some "12345") test_server) = Ok tt /\
   redis_client
     (fst (_process_webhook (defined_handlers failing_handlers)
             (Some "push") test_payload (Some "12345") test_server)) = None)
  /\
  snd (_process_webhook (defined_handlers quiet_handlers)
         (Some "push") test_payload (Some "12345") (cached_server [true; true]))
  = Raise (PyErr ConnectionError "Connection refused").
Proof. repeat split. Qed.

(** ** Metrics aggregation *)

Lemma aggregate_nil (start_date : Z) (metrics : list string) :
  aggregate start_date metrics [] = (pr_metrics_init, []).
Proof. reflexivity. Qed.

Lemma window_start_is_Exception (end_date timeframe_days : Z) (e : exn) :
  window_start end_date timeframe_days = Raise e -> is_Exception e = true.
Proof.
  unfold window_start, timedelta, datetime_sub.
  repeat match goal with
         | |- context [if ?b then _ else _] => destruct b
         end; intros [= <-]; reflexivity.
Qed.

(** The call on a connected project whose repository is found, up to the
    start of the window. *)
Lemma analyze_connected
    (remote : Remote) (arguments : MetricsArguments) (self : Server)
    (project_id : string) (project repo_id : json) (repo : Repository) :
  arg_project_id arguments = Some project_id ->
  _get_project_info remote project_id = Ok project ->
  json_get project "githubRepoId" JNull = Ok repo_id ->
  json_truthy repo_id = true ->
  get_repo_by_id remote repo_id = Ok repo ->
  _analyze_pr_metrics remote arguments self =
  try_except
    (start_date <~ lift (window_start (utcnow_usec remote)
                           (match arg_timeframe_days arguments with
                            | Some d => d
                            | None => 30
                            end)) ;;
     prs <~ lift (get_pulls repo) ;;
     ret (Success
            (fst (aggregate start_date
                    (match arg_metrics arguments with
                     | Some l => l
                     | None => ["merge_time"; "review_time"; "comments"; "changes"]
                     end) prs))
            (snd (aggregate start_date
                    (match arg_metrics arguments with
                     | Some l => l
                     | None => ["merge_time"; "review_time"; "comments"; "changes"]
                     end) prs))
            start_date (utcnow_usec remote)
            (match arg_timeframe_days arguments with Some d => d | None => 30 end)))
    (fun e =>
       log ERROR ("Error analyzing PR metrics: " +:+ exn_str e) ;;;
       ret (Failure (exn_str e)))
    self.
Proof.
  intros Hid Hp Hg Ht Hrepo.
  unfold _analyze_pr_metrics, try_except, mbind, lift, ret.
  rewrite Hid, Hp, Hg, Ht, Hrepo. simpl.
  destruct (window_start _ _) as [start_date|e]; [|reflexivity].
  destruct (get_pulls repo) as [prs|e]; [|reflexivity].
  reflexivity.
Qed.

(** C7, as the code has it: on a connected project whose repository is
    found and has no pull request, the analysis succeeds with every count
    at zero, every average at zero, no contributor, no label and no
    insight, provided the start of the window, [timeframe_days] days before
    now, is a date [datetime] can hold.  When it is not, the call logs the
    OverflowError and answers with a failure carrying its message. *)
Theorem analyze_empty
    (remote : Remote) (arguments : MetricsArguments) (self : Server)
    (project_id : string) (project repo_id : json) (repo : Repository) :
  arg_project_id arguments = Some project_id ->
  _get_project_info remote project_id = Ok project ->
  json_get project "githubRepoId" JNull = Ok repo_id ->
  json_truthy repo_id = true ->
  get_repo_by_id remote repo_id = Ok repo ->
  get_pulls repo = Ok [] ->
  (forall start_date : Z,
     window_start (utcnow_usec remote)
       (match arg_timeframe_days arguments with Some d => d | None => 30 end)
       = Ok start_date ->
     exists m : PRMetrics,
       _analyze_pr_metrics remote arguments self
         = (self, Ok (Success m [] start_date (utcnow_usec remote)
                        (match arg_timeframe_days arguments with
                         | Some d => d
                         | None => 30
                         end))) /\
       total_prs m = 0 /\ merged_prs m = 0 /\ open_prs m = 0 /\
       closed_without_merge m = 0 /\
       avg_merge_time_hours m = 0%Q /\ avg_review_time_hours m = 0%Q /\
       avg_comments m = 0%Q /\ avg_changes m = 0%Q /\
       top_contributors m = [] /\ label_distribution m = [])
  /\
  (forall e : exn,
     window_start (utcnow_usec remote)
       (match arg_timeframe_days arguments with Some d => d | None => 30 end)
       = Raise e ->
     _analyze_pr_metrics remote arguments self
       = (add_log (Log ERROR ("Error analyzing PR metrics: " +:+ exn_str e)) self,
          Ok (Failure (exn_str e)))).
Proof.
  intros Hid Hp Hg Ht Hrepo Hpulls.
  rewrite (analyze_connected _ _ _ _ _ _ _ Hid Hp Hg Ht Hrepo).
  unfold try_except, mbind, lift, ret, log. split.
  - intros start_date ->. rewrite Hpulls, aggregate_nil. simpl.
    eexists. repeat split.
  - intros e He. rewrite He, (window_start_is_Exception _ _ _ He). reflexivity.
Qed.

Lemma analyze_empty_witness :
  (exists m : PRMetrics,
     _analyze_pr_metrics empty_remote test_arguments test_server
       = (test_server,
          Ok (Success m [] 1701475200000000 1704067200000000 30)) /\
     total_prs m = 0 /\ merged_prs m = 0 /\ open_prs m = 0 /\
     closed_without_merge m = 0 /\
     avg_merge_time_hours m = 0%Q /\ avg_review_time_hours m = 0%Q /\
     avg_comments m = 0%Q /\ avg_changes m = 0%Q /\
     top_contributors m = [] /\ label_distribution m = [])
  /\
  _analyze_pr_metrics empty_remote long_arguments test_server
    = (add_log (Log ERROR "Error analyzing PR metrics: date value out of range")
         test_server,
       Ok (Failure "date value out of range")).
Proof.
  split.
  - exact (proj1 (analyze_empty empty_remote test_arguments test_server
                    "proj-123" test_project (JStr "123") {| get_pulls := Ok [] |}
                    eq_refl eq_refl eq_refl eq_refl eq_refl eq_refl)
             1701475200000000 eq_refl).
  - exact (proj2 (analyze_empty empty_remote long_arguments test_server
                    "proj-123" test_project (JStr "123") {| get_pulls := Ok [] |}
                    eq_refl eq_refl eq_refl eq_refl eq_refl eq_refl)
             (PyErr OverflowError "date value out of range") eq_refl).
Defined.

(** C7 as stated fails: the project is connected and its repository has
    no pull request, yet over a window of a million days the call returns
    no count at all: it answers with the failure "date value out of
    range". *)
Lemma analyze_empty_out_of_range :
  get_repo_by_id empty_remote (JStr "123") = Ok {| get_pulls := Ok [] |} /\
  arg_timeframe_days long_arguments = Some 1000000 /\
  _analyze_pr_metrics empty_remote long_arguments test_server
    = (add_log (Log ERROR "Error analyzing PR metrics: date value out of range")
         test_server,
       Ok (Failure "date value out of range")).
Proof. repeat split. Qed.

Lemma scan_app_recent (start_date : Z) (metrics : list string)
    (l1 l2 : list PullRequest) (acc : Accum) :
  Forall (fun p => start_date <= created_at p) l1 ->
  scan start_date metrics (l1 ++ l2) acc =
  scan start_date metrics l2 (fold_left (account metrics) l1 acc).
Proof.
  intros H. revert acc. induction H as [|p l1 Hp _ IH]; intros acc; simpl.
  - reflexivity.
  - destruct (Z.ltb_spec (created_at p) start_date); [lia | apply IH].
Qed.

Lemma scan_recent (start_date : Z) (metrics : list string)
    (l : list PullRequest) (acc : Accum) :
  Forall (fun p => start_date <= created_at p) l ->
  scan start_date metrics l acc = fold_left (account metrics) l acc.
Proof.
  intros H. rewrite <- (app_nil_r l) at 1. now rewrite scan_app_recent.
Qed.

(** C8: the loop stops at the first pull request created strictly before
    the window start.  The pull requests before it are all accounted, and
    neither it nor anything after it changes the result. *)
Theorem scan_stops_at_window_start
    (start_date : Z) (metrics : list string)
    (recent : list PullRequest) (old : PullRequest) (later : list PullRequest) :
  Forall (fun p => start_date <= created_at p) recent ->
  created_at old < start_date ->
  scan start_date metrics (recent ++ old :: later) accum_init
    = fold_left (account metrics) recent accum_init /\
  aggregate start_date metrics (recent ++ old :: later)
    = aggregate start_date metrics recent.
Proof.
  intros Hrecent Hold.
  assert (Hscan : scan start_date metrics (recent ++ old :: later) accum_init
                  = scan start_date metrics recent accum_init).
  { rewrite scan_app_recent by assumption.
    rewrite (scan_recent _ _ recent) by assumption. simpl.
    destruct (Z.ltb_spec (created_at old) start_date); [reflexivity | lia]. }
  split.
  - rewrite Hscan. now apply scan_recent.
  - unfold aggregate. now rewrite Hscan.
Qed.

Lemma scan_stops_at_window_start_witness :
  scan 1000 ["comments"; "changes"]
    ([merged_pr 3000 "alice"; open_pr 2000 "bob"] ++
     open_pr 999 "carol" :: [merged_pr 5000 "dave"]) accum_init
    = fold_left (account ["comments"; "changes"])
        [merged_pr 3000 "alice"; open_pr 2000 "bob"] accum_init /\
  aggregate 1000 ["comments"; "changes"]
    ([merged_pr 3000 "alice"; open_pr 2000 "bob"] ++
     open_pr 999 "carol" :: [merged_pr 5000 "dave"])
    = aggregate 1000 ["comments"; "changes"]
        [merged_pr 3000 "alice"; open_pr 2000 "bob"].
Proof.
  apply (scan_stops_at_window_start 1000 ["comments"; "changes"]
           [merged_pr 3000 "alice"; open_pr 2000 "bob"]
           (open_pr 999 "carol") [merged_pr 5000 "dave"]).
  - repeat constructor; simpl; lia.
  - simpl. lia.
Defined.

(** ** PR automation configuration *)

(** C9: for a repository whose id has no entry in [pr_configs], the lookup
    returns the default configuration and leaves the server, hence the
    stored configurations, unchanged. *)
Theorem get_pr_config_default (repository : list (string * json)) (self : Server) :
  pr_configs self !! repo_id_of repository = None ->
  _get_pr_config repository self = (self, Ok PRAutomationConfig_default) /\
  PRAutomationConfig_default =
    {| auto_assign := true;
       auto_label := true;
       require_reviews := 2;
       protected_branches := ["main"; "master"; "production"];
       draft_on_wip := true;
       close_stale_after_days := 30 |}.
Proof.
  intros H. unfold _get_pr_config. rewrite H. split; reflexivity.
Qed.

Lemma get_pr_config_default_witness :
  _get_pr_config test_repository configured_server
    = (configured_server, Ok PRAutomationConfig_default) /\
  PRAutomationConfig_default =
    {| auto_assign := true;
       auto_label := true;
       require_reviews := 2;
       protected_branches := ["main"; "master"; "production"];
       draft_on_wip := true;
       close_stale_after_days := 30 |}.
Proof.
  apply (get_pr_config_default test_repository configured_server).
  vm_compute. reflexivity.
Defined.

(** ** Cache keys *)


(** *** The order on keys *)




Section sorting.
Context {V : Type}.
Implicit Types (kv : string * V) (l : list (string * V)).







End sorting.

(** *** Sorted dumps ignore insertion order *)











(** The key of the two lists, computed. *)
Example generate_cache_key_value :
  CacheUtils.generate_cache_key ordered_args = "ec04ae3aa0661f2d510f5edc44bdab38" /\
  CacheUtils.generate_cache_key reordered_args = "ec04ae3aa0661f2d510f5edc44bdab38".
Proof. vm_compute. split; reflexivity. Qed.

(* ===================================================================== *)
(** * Further properties *)
(* ===================================================================== *)

(** ** Lower case and substrings *)

Lemma char_lower_idempotent (c : ascii) : char_lower (char_lower c) = char_lower c.
Proof. destruct c as [[] [] [] [] [] [] [] []]; vm_compute; reflexivity. Qed.

Lemma is_word_char_lower (c : ascii) : is_word (char_lower c) = is_word c.
Proof. destruct c as [[] [] [] [] [] [] [] []]; vm_compute; reflexivity. Qed.

Lemma is_word_not_space (c : ascii) : is_word c = true -> is_space c = false.
Proof.
  destruct c as [[] [] [] [] [] [] [] []]; vm_compute; intros H;
    solve [reflexivity | discriminate H].
Qed.

Lemma is_word_not_at (c : ascii) : is_word c = true -> Ascii.eqb c at_sign = false.
Proof.
  destruct c as [[] [] [] [] [] [] [] []]; vm_compute; intros H;
    solve [reflexivity | discriminate H].
Qed.

Lemma lower_idempotent (s : string) : lower (lower s) = lower s.
Proof.
  induction s as [|c s IH]; simpl; [reflexivity|].
  now rewrite char_lower_idempotent, IH.
Qed.

Lemma lower_append (a b : string) : lower (a +:+ b) = lower a +:+ lower b.
Proof. induction a as [|c a IH]; simpl; [reflexivity | now rewrite IH]. Qed.

Lemma startswith_append (s p q : string) :
  startswith s (p +:+ q) = true -> startswith s p = true.
Proof.
  revert s. induction p as [|x p IH]; intros s H; simpl in *; [reflexivity|].
  destruct s as [|c s]; [discriminate H|].
  apply andb_true_iff in H as [Hc H]. rewrite Hc. simpl. now apply IH.
Qed.

Lemma contains_startswith (needle hay : string) :
  startswith hay needle = true -> contains needle hay = true.
Proof. intros H. destruct hay; simpl in *; now rewrite H. Qed.

Lemma contains_drop_suffix (needle suffix hay : string) :
  contains (needle +:+ suffix) hay = true -> contains needle hay = true.
Proof.
  induction hay as [|c hay IH]; simpl; intros H.
  - apply orb_true_iff in H as [H|H]; [|discriminate H].
    now rewrite (startswith_append _ _ _ H).
  - apply orb_true_iff in H as [H|H].
    + now rewrite (startswith_append _ _ _ H).
    + rewrite (IH H). apply orb_true_r.
Qed.

Lemma contains_drop_first (x : ascii) (needle hay : string) :
  contains (String x needle) hay = true -> contains needle hay = true.
Proof.
  induction hay as [|c hay IH]; simpl; intros H.
  - discriminate H.
  - apply orb_true_iff in H as [H|H].
    + apply andb_true_iff in H as [_ H].
      rewrite (contains_startswith _ _ H). apply orb_true_r.
    + rewrite (IH H). apply orb_true_r.
Qed.

(** X6: the bracketed markers "[wip]" and "[draft]" never decide: a title
    is work in progress exactly when its lower case holds "wip", "work in
    progress" or "draft"; and the test ignores the case of the title. *)
Theorem is_wip_pr_markers (title : string) :
  _is_wip_pr title =
    (contains "wip" (lower title) || contains "work in progress" (lower title)
     || contains "draft" (lower title)) /\
  _is_wip_pr (lower title) = _is_wip_pr title.
Proof.
  split.
  - unfold _is_wip_pr. simpl. rewrite orb_false_r.
    destruct (contains "wip" (lower title)) eqn:Hw; [reflexivity|].
    destruct (contains "work in progress" (lower title)); [reflexivity|].
    destruct (contains "draft" (lower title)) eqn:Hd; [reflexivity|].
    simpl.
    destruct (contains "[wip]" (lower title)) eqn:Hbw.
    { apply contains_drop_first in Hbw.
      apply (contains_drop_suffix "wip" "]") in Hbw. congruence. }
    destruct (contains "[draft]" (lower title)) eqn:Hbd; [|reflexivity].
    apply contains_drop_first in Hbd.
    apply (contains_drop_suffix "draft" "]") in Hbd. congruence.
  - unfold _is_wip_pr. now rewrite lower_idempotent.
Qed.

(** ** PR sizes and labels *)

(** X1: the size label grows with the number of changed lines: a pull
    request that changes at least as many lines as another never gets a
    smaller size. *)
Theorem calculate_pr_size_monotone (a1 d1 a2 d2 : Z) :
  a1 + d1 <= a2 + d2 ->
  (GitHubUtils.size_rank (GitHubUtils.calculate_pr_size a1 d1) <=
   GitHubUtils.size_rank (GitHubUtils.calculate_pr_size a2 d2))%nat.
Proof.
  intros H. unfold GitHubUtils.calculate_pr_size.
  repeat match goal with
         | |- context [?x <? ?y] => destruct (Z.ltb_spec x y)
         end; vm_compute; lia.
Qed.

Lemma calculate_pr_size_monotone_witness :
  (GitHubUtils.size_rank (GitHubUtils.calculate_pr_size 30 19) <=
   GitHubUtils.size_rank (GitHubUtils.calculate_pr_size 200 50))%nat.
Proof. apply calculate_pr_size_monotone. lia. Defined.

(** X2: whatever the numbers of added and deleted lines, the size is one
    of XS, S, M, L, XL and the label "size/<size>" has a standard colour. *)
Theorem calculate_pr_size_has_colour (additions deletions : Z) :
  In (GitHubUtils.calculate_pr_size additions deletions) GitHubUtils.sizes /\
  exists colour : string,
    dict_get LabelUtils.COLORS
      ("size/" +:+ GitHubUtils.calculate_pr_size additions deletions) = Some colour.
Proof.
  unfold GitHubUtils.calculate_pr_size.
  repeat match goal with
         | |- context [?x <? ?y] => destruct (x <? y)
         end; (split; [simpl; tauto | eexists; reflexivity]).
Qed.

Lemma raw_suggestions_cases (text label : string) :
  In label (LabelUtils.raw_suggestions text) ->
  In label ["bug"; "enhancement"; "documentation"; "critical"; "high";
            "good first issue"].
Proof.
  unfold LabelUtils.raw_suggestions.
  repeat match goal with
         | |- context [LabelUtils.any_in ?k ?t] => destruct (LabelUtils.any_in k t)
         end; simpl; tauto.
Qed.

Lemma raw_suggestions_exclusive (text : string) :
  In "critical" (LabelUtils.raw_suggestions text) ->
  In "high" (LabelUtils.raw_suggestions text) -> False.
Proof.
  unfold LabelUtils.raw_suggestions.
  repeat match goal with
         | |- context [LabelUtils.any_in ?k ?t] => destruct (LabelUtils.any_in k t)
         end; simpl; intuition discriminate.
Qed.

(** X4: a suggested label is never one of the existing labels, it always
    has a standard colour, and "critical" and "high" are never suggested
    together. *)
Theorem suggest_labels_sound
    (text : string) (existing_labels : list string) (label : string) :
  label ∈ LabelUtils.suggest_labels text (Some existing_labels) ->
  ~ In label existing_labels /\
  (exists colour : string, dict_get LabelUtils.COLORS label = Some colour) /\
  ~ ("critical" ∈ LabelUtils.suggest_labels text (Some existing_labels) /\
     "high" ∈ LabelUtils.suggest_labels text (Some existing_labels)).
Proof.
  unfold LabelUtils.suggest_labels.
  rewrite !elem_of_difference, !elem_of_list_to_set, !list_elem_of_In.
  intros [Hin Hnot]. split; [exact Hnot|]. split.
  - apply raw_suggestions_cases in Hin. simpl in Hin.
    decompose [or] Hin; subst; try contradiction; eexists; reflexivity.
  - intros [[Hc _] [Hh _]]. exact (raw_suggestions_exclusive text Hc Hh).
Qed.

Lemma suggest_labels_sound_witness :
  ~ In "critical" ["bug"] /\
  (exists colour : string, dict_get LabelUtils.COLORS "critical" = Some colour) /\
  ~ ("critical" ∈ LabelUtils.suggest_labels "Urgent: login is broken" (Some ["bug"]) /\
     "high" ∈ LabelUtils.suggest_labels "Urgent: login is broken" (Some ["bug"])).
Proof.
  apply (suggest_labels_sound "Urgent: login is broken" ["bug"] "critical").
  vm_compute. set_solver.
Defined.

(** *** Label categories *)

Lemma category_of_cases (label : string) :
  In (LabelUtils.category_of label) category_names.
Proof.
  unfold LabelUtils.category_of.
  repeat match goal with
         | |- context [if ?b then _ else _] => destruct b
         end; simpl; tauto.
Qed.

Lemma dict_append_absent (categories : list (string * list string)) (key label : string) :
  key ∉ map fst categories ->
  categories =
  map (fun kv => (fst kv, snd kv ++ (if String.eqb (fst kv) key then [label] else [])))
      categories.
Proof.
  induction categories as [|[k v] categories IH]; simpl; intros Hnotin; [reflexivity|].
  rewrite not_elem_of_cons in Hnotin. destruct Hnotin as [Hne Hnotin].
  destruct (String.eqb_spec k key) as [->|_]; [now elim Hne|].
  rewrite app_nil_r. f_equal. now apply IH.
Qed.

(** Appending under a key of a dict without repeated key. *)
Lemma dict_append_spec (categories : list (string * list string)) (key label : string) :
  NoDup (map fst categories) ->
  LabelUtils.dict_append categories key label =
  map (fun kv => (fst kv, snd kv ++ (if String.eqb (fst kv) key then [label] else [])))
      categories.
Proof.
  induction categories as [|[k v] categories IH]; intros Hnd; simpl; [reflexivity|].
  inversion Hnd as [|? ? Hnotin Hnd']; subst.
  destruct (String.eqb_spec k key) as [->|Hne].
  - f_equal. now apply dict_append_absent.
  - rewrite app_nil_r. f_equal. now apply IH.
Qed.

Lemma fold_dict_append (labels : list string) (categories : list (string * list string)) :
  NoDup (map fst categories) ->
  fold_left (fun categories label =>
               LabelUtils.dict_append categories (LabelUtils.category_of label) label)
            labels categories =
  map (fun kv =>
         (fst kv,
          snd kv ++ List.filter (fun label => String.eqb (LabelUtils.category_of label)
                                                         (fst kv)) labels))
      categories.
Proof.
  revert categories. induction labels as [|label labels IH]; intros categories Hnd; simpl.
  - rewrite <- (map_id categories) at 1. apply map_ext.
    intros [k v]. simpl. now rewrite app_nil_r.
  - rewrite dict_append_spec by exact Hnd.
    rewrite IH.
    + rewrite map_map. apply map_ext. intros [k v]. simpl.
      rewrite (String.eqb_sym k). 
      destruct (String.eqb (LabelUtils.category_of label) k); simpl;
        now rewrite <- app_assoc.
    + rewrite map_map. simpl. exact Hnd.
Qed.

Lemma categorize_labels_spec (labels : list string) :
  LabelUtils.categorize_labels labels =
  List.filter (fun kv => nonempty (snd kv))
              (map (fun category => (category, labels_of category labels))
                   category_names).
Proof.
  unfold LabelUtils.categorize_labels. rewrite fold_dict_append.
  - reflexivity.
  - unfold LabelUtils.categories_init. simpl.
    repeat (apply NoDup_cons_2;
            [repeat (apply not_elem_of_cons; split; [discriminate|]);
             apply not_elem_of_nil|]).
    apply NoDup_nil_2.
Qed.

Lemma labels_of_partition (labels : list string) :
  Permutation (concat (map (fun category => labels_of category labels) category_names))
              labels.
Proof.
  induction labels as [|label labels IH]; [reflexivity|].
  unfold labels_of in *. simpl in *. rewrite !app_nil_r in *.
  pose proof (category_of_cases label) as Hc. simpl in Hc.
  decompose [or] Hc; try contradiction;
    match goal with H : _ = LabelUtils.category_of label |- _ => rewrite <- H end;
    simpl; rewrite <- ?Permutation_middle; apply perm_skip; exact IH.
Qed.

Lemma concat_filter_nonempty (l : list (string * list string)) :
  concat (map snd (List.filter (fun kv => nonempty (snd kv)) l)) = concat (map snd l).
Proof.
  induction l as [|[k [|x v]] l IH]; simpl; [reflexivity | exact IH | now rewrite IH].
Qed.

(** X3: [categorize_labels] partitions the labels: the categories of the
    result, put end to end, are the labels given (each label falls in
    exactly one category); no category of the result is empty; and every
    category lists its labels in the order they were given. *)
Theorem categorize_labels_partition (labels : list string) :
  Permutation (concat (map snd (LabelUtils.categorize_labels labels))) labels /\
  Forall (fun kv => snd kv <> []) (LabelUtils.categorize_labels labels) /\
  Forall (fun kv => In (fst kv) category_names /\ snd kv = labels_of (fst kv) labels)
         (LabelUtils.categorize_labels labels).
Proof.
  rewrite categorize_labels_spec. split; [|split].
  - rewrite concat_filter_nonempty, map_map. simpl map at 1.
    apply labels_of_partition.
  - apply Forall_forall. intros [k v] Hin.
    apply list_elem_of_In, filter_In in Hin as [_ Hne].
    simpl in *. destruct v; [discriminate Hne | discriminate].
  - apply Forall_forall. intros [k v] Hin.
    apply list_elem_of_In, filter_In in Hin as [Hin _].
    apply in_map_iff in Hin as (category & [= <- <-] & Hin). simpl. tauto.
Qed.

(** ** Branch names *)

Lemma drop_while_split {A : Type} (p : A -> bool) (l : list A) :
  exists pre : list A, l = pre ++ drop_while p l.
Proof.
  induction l as [|x l [pre IH]]; simpl.
  - now exists [].
  - destruct (p x).
    + exists (x :: pre). simpl. now f_equal.
    + now exists [].
Qed.

Lemma drop_while_head {A : Type} (p : A -> bool) (l : list A) (x : A) (r : list A) :
  drop_while p l = x :: r -> p x = false.
Proof.
  induction l as [|y l IH]; simpl; [discriminate|].
  destruct (p y) eqn:E; [exact IH|]. intros [= <- _]. exact E.
Qed.

Lemma rstrip_hyphen_prefix (l : list ascii) :
  exists suffix : list ascii, l = GitHubUtils.rstrip_hyphen l ++ suffix.
Proof.
  unfold GitHubUtils.rstrip_hyphen.
  destruct (drop_while_split is_hyphen (rev l)) as [pre H].
  exists (rev pre). rewrite <- rev_app_distr, <- H. symmetry. apply rev_involutive.
Qed.

Lemma rstrip_hyphen_end (l pre : list ascii) :
  GitHubUtils.rstrip_hyphen l <> pre ++ [hyphen].
Proof.
  unfold GitHubUtils.rstrip_hyphen. intros H.
  apply (f_equal (@rev ascii)) in H.
  rewrite rev_involutive, rev_app_distr in H. simpl in H.
  apply drop_while_head in H. discriminate H.
Qed.

Lemma single_hyphens_prefix (l1 l2 : list ascii) :
  single_hyphens (l1 ++ l2) = true -> single_hyphens l1 = true.
Proof.
  induction l1 as [|c l1 IH]; [reflexivity|].
  destruct l1 as [|c' l1]; [reflexivity|].
  intros H. change (negb (is_hyphen c && is_hyphen c') &&
                    single_hyphens ((c' :: l1) ++ l2) = true) in H.
  apply andb_true_iff in H as [Hc H].
  change (negb (is_hyphen c && is_hyphen c') && single_hyphens (c' :: l1) = true).
  rewrite Hc. simpl. now apply IH.
Qed.

Lemma collapse_single_hyphens (l : list ascii) (in_run : bool) :
  single_hyphens (GitHubUtils.collapse in_run l) = true /\
  (in_run = true ->
   forall c r, GitHubUtils.collapse in_run l = c :: r -> is_hyphen c = false).
Proof.
  revert in_run. induction l as [|x l IH]; intros in_run; simpl.
  - split; [reflexivity | discriminate].
  - destruct (is_hyphen x || is_space x) eqn:Hsep.
    + destruct (IH true) as [Hs Hh]. destruct in_run.
      * split; [exact Hs | intros _; now apply Hh].
      * split; [|discriminate].
        destruct (GitHubUtils.collapse true l) as [|c r] eqn:E; [reflexivity|].
        change (negb (is_hyphen hyphen && is_hyphen c) && single_hyphens (c :: r) = true).
        rewrite (Hh eq_refl c r eq_refl), Hs. reflexivity.
    + apply orb_false_iff in Hsep as [Hx _].
      destruct (IH false) as [Hs _]. split.
      * destruct (GitHubUtils.collapse false l) as [|c r] eqn:E; [reflexivity|].
        change (negb (is_hyphen x && is_hyphen c) && single_hyphens (c :: r) = true).
        now rewrite Hx, Hs.
      * intros _ c r [= <- _]. exact Hx.
Qed.

Lemma collapse_chars (l : list ascii) (in_run : bool) :
  Forall (fun c => is_word c || is_space c || is_hyphen c = true) l ->
  Forall (fun c => is_word c || is_hyphen c = true) (GitHubUtils.collapse in_run l).
Proof.
  intros H. revert in_run. induction H as [|x l Hx _ IH]; intros in_run; simpl.
  - constructor.
  - destruct (is_hyphen x || is_space x) eqn:Hsep.
    + destruct in_run; [apply IH|]. constructor; [reflexivity | apply IH].
    + constructor; [|apply IH].
      apply orb_false_iff in Hsep as [Hh Hs]. rewrite Hh, Hs in Hx.
      rewrite !orb_false_r in Hx. now rewrite Hx.
Qed.

(** X5: the part of a branch name made from the issue title has at most
    fifty characters, all of them word characters or hyphens, never two
    hyphens in a row, and no hyphen at the end. *)
Theorem clean_title_shape (issue_title : string) :
  (length (GitHubUtils.clean_title issue_title) <= 50)%nat /\
  Forall (fun c => is_word c || is_hyphen c = true)
         (GitHubUtils.clean_title issue_title) /\
  single_hyphens (GitHubUtils.clean_title issue_title) = true /\
  (forall pre : list ascii, GitHubUtils.clean_title issue_title <> pre ++ [hyphen]).
Proof.
  unfold GitHubUtils.clean_title.
  set (kept := List.filter _ _).
  set (cut := firstn 50 (GitHubUtils.collapse false kept)).
  destruct (rstrip_hyphen_prefix cut) as [suffix Hcut].
  assert (Hkept : Forall (fun c => is_word c || is_space c || is_hyphen c = true) kept).
  { apply Forall_forall. intros c Hc. subst kept.
    apply list_elem_of_In, filter_In in Hc. tauto. }
  assert (Hcut_chars : Forall (fun c => is_word c || is_hyphen c = true) cut).
  { subst cut. apply Forall_take. now apply collapse_chars. }
  assert (Hcut_single : single_hyphens cut = true).
  { subst cut. apply (single_hyphens_prefix _ (skipn 50 (GitHubUtils.collapse false kept))).
    rewrite firstn_skipn. apply collapse_single_hyphens. }
  repeat split.
  - transitivity (length cut).
    + rewrite Hcut at 2. rewrite length_app. lia.
    + subst cut. rewrite length_take. lia.
  - rewrite Hcut in Hcut_chars. now apply Forall_app in Hcut_chars.
  - rewrite Hcut in Hcut_single. now apply single_hyphens_prefix in Hcut_single.
  - apply rstrip_hyphen_end.
Qed.

(** ** Triage *)

(** X7: triage returns when the title and the body of the issue are str
    or absent: it suggests no agent, sets at most one label, and rates the
    issue "high" exactly when the label is "bug".  When the body is present
    and not a str, as the null GitHub sends for an empty description,
    triage raises AttributeError. *)
Theorem triage_issue_outcomes (issue : list (string * json)) :
  (is_text (dict_get issue "title") = true ->
   is_text (dict_get issue "body") = true ->
   exists t : Triage,
     _triage_issue issue = Ok t /\
     suggested_agent t = None /\
     (length (triage_labels t) <= 1)%nat /\
     (triage_priority t = "high" <-> triage_labels t = ["bug"]))
  /\
  (forall v : json,
     is_text (dict_get issue "title") = true ->
     dict_get issue "body" = Some v ->
     is_text (Some v) = false ->
     _triage_issue issue =
     Raise (PyErr AttributeError
              ("'" +:+ type_name v +:+ "' object has no attribute 'lower'"))).
Proof.
  unfold _triage_issue. split.
  - intros Ht Hb.
    destruct (dict_get issue "title") as [[| | |title| |]|]; try discriminate Ht;
      destruct (dict_get issue "body") as [[| | |body| |]|]; try discriminate Hb;
      cbn -[mentions];
      repeat match goal with
             | |- context [mentions ?w ?t ?b] => destruct (mentions w t b)
             end;
      eexists; (split; [reflexivity|]); simpl;
      (split; [reflexivity|]); (split; [lia|]); split; intros H; solve [reflexivity | discriminate H].
  - intros v Ht Hb Hv. rewrite Hb.
    destruct (dict_get issue "title") as [[| | |title| |]|]; try discriminate Ht;
      simpl; destruct v; solve [discriminate Hv | reflexivity].
Qed.

Lemma triage_issue_outcomes_witness :
  (exists t : Triage,
     _triage_issue plain_issue = Ok t /\
     suggested_agent t = None /\
     (length (triage_labels t) <= 1)%nat /\
     (triage_priority t = "high" <-> triage_labels t = ["bug"]))
  /\
  _triage_issue null_body_issue =
  Raise (PyErr AttributeError "'NoneType' object has no attribute 'lower'").
Proof.
  split.
  - exact (proj1 (triage_issue_outcomes plain_issue) eq_refl eq_refl).
  - exact (proj2 (triage_issue_outcomes null_body_issue) JNull eq_refl eq_refl eq_refl).
Defined.

(** ** Agent assignment *)

Lemma take_while_Forall {A : Type} (p : A -> bool) (l : list A) :
  Forall (fun x => p x = true) (take_while p l).
Proof.
  induction l as [|x l IH]; simpl; [constructor|].
  destruct (p x) eqn:E; constructor; assumption.
Qed.

Lemma take_while_sub {A : Type} (P : A -> Prop) (p : A -> bool) (l : list A) :
  Forall P l -> Forall P (take_while p l).
Proof.
  induction 1 as [|x l Hx _ IH]; simpl; [constructor|].
  destruct (p x); constructor; assumption.
Qed.

Lemma drop_while_sub {A : Type} (P : A -> Prop) (p : A -> bool) (l : list A) :
  Forall P l -> Forall P (drop_while p l).
Proof.
  induction 1 as [|x l Hx Hl IH]; simpl; [constructor|].
  destruct (p x); [exact IH | now constructor].
Qed.

Lemma take_while_app {A : Type} (p : A -> bool) (l1 l2 : list A) :
  Forall (fun x => p x = true) l1 ->
  match l2 with [] => True | x :: _ => p x = false end ->
  take_while p (l1 ++ l2) = l1.
Proof.
  intros H1 H2. induction H1 as [|x l1 Hx _ IH].
  - destruct l2 as [|x l2]; [reflexivity|]. simpl. now rewrite H2.
  - change (take_while p (x :: (l1 ++ l2)) = x :: l1). simpl. now rewrite Hx, IH.
Qed.

Lemma agent_match_at_name (P : ascii -> Prop) (l name : list ascii) :
  Forall P l -> agent_match_at l = Some name ->
  name <> [] /\ Forall (fun c => is_word c = true) name /\ Forall P name /\
  startswith (string_of_list_ascii l) "agent:" = true.
Proof.
  intros Hl. unfold agent_match_at.
  destruct (startswith (string_of_list_ascii l) "agent:"); [|discriminate].
  set (after_space := drop_while is_space (skipn 6 l)).
  assert (Hs : Forall P after_space).
  { apply drop_while_sub. now apply Forall_drop. }
  set (after_at := match after_space with
                   | c :: rest => if Ascii.eqb c at_sign then rest else after_space
                   | [] => after_space
                   end).
  assert (Ha : Forall P after_at).
  { subst after_at. destruct after_space as [|c rest]; [exact Hs|].
    destruct (Ascii.eqb c at_sign); [now inversion Hs | exact Hs]. }
  pose proof (take_while_Forall is_word after_at) as Hw.
  pose proof (take_while_sub P is_word after_at Ha) as Hp.
  destruct (take_while is_word after_at) as [|c r]; [discriminate|].
  intros [= <-]. repeat split; try discriminate; auto.
Qed.

Lemma agent_search_name (P : ascii -> Prop) (l name : list ascii) :
  Forall P l -> agent_search l = Some name ->
  name <> [] /\ Forall (fun c => is_word c = true) name /\ Forall P name /\
  contains "agent:" (string_of_list_ascii l) = true.
Proof.
  induction l as [|x l IH]; intros Hl; simpl.
  - discriminate.
  - destruct (agent_match_at (x :: l)) as [found|] eqn:E.
    + intros [= <-]. destruct (agent_match_at_name P _ _ Hl E) as (? & ? & ? & Hsw).
      repeat split; auto. simpl in Hsw. now rewrite Hsw.
    + intros H. inversion Hl as [|? ? _ Hl']; subst.
      destruct (IH Hl' H) as (? & ? & ? & Hc). repeat split; auto.
      rewrite Hc. apply orb_true_r.
Qed.

Lemma lower_fixed (l : list ascii) :
  Forall (fun c => char_lower c = c) l ->
  lower (string_of_list_ascii l) = string_of_list_ascii l.
Proof. induction 1 as [|c l Hc _ IH]; simpl; [reflexivity | now rewrite Hc, IH]. Qed.

Lemma chars_lower_fixed (s : string) :
  Forall (fun c => char_lower c = c) (chars (lower s)).
Proof.
  induction s as [|c s IH]; simpl; constructor;
    [apply char_lower_idempotent | exact IH].
Qed.

(** X8: an extracted agent name is never empty, is made of word
    characters only (so it holds no hyphen, dot or space), is in lower
    case, and is found only when the lower-cased body holds "agent:". *)
Theorem extract_agent_name_shape (body name : string) :
  _extract_agent_assignment body = Some name ->
  name <> "" /\
  forallb is_word (chars name) = true /\
  lower name = name /\
  contains "agent:" (lower body) = true.
Proof.
  unfold _extract_agent_assignment. intros H.
  destruct (agent_search (chars (lower body))) as [found|] eqn:E; [|discriminate H].
  injection H as <-.
  destruct (agent_search_name _ _ _ (chars_lower_fixed body) E) as (Hne & Hw & Hl & Hc).
  unfold chars in Hc. rewrite string_of_list_ascii_of_string in Hc.
  repeat split.
  - destruct found; [now elim Hne | discriminate].
  - unfold chars. rewrite list_ascii_of_string_of_list_ascii.
    apply forallb_forall. intros c Hin. rewrite Forall_forall in Hw.
    apply Hw. now apply list_elem_of_In.
  - now apply lower_fixed.
  - exact Hc.
Qed.

Lemma extract_agent_name_shape_witness :
  "backend" <> "" /\
  forallb is_word (chars "backend") = true /\
  lower "backend" = "backend" /\
  contains "agent:" (lower "Please review. Agent: @Backend-Specialist") = true.
Proof.
  apply (extract_agent_name_shape "Please review. Agent: @Backend-Specialist" "backend").
  vm_compute. reflexivity.
Defined.

Lemma chars_lower_word (w : string) :
  forallb is_word (chars w) = true ->
  Forall (fun c => is_word c = true) (chars (lower w)).
Proof.
  induction w as [|c w IH]; simpl; [constructor|].
  intros H. apply andb_true_iff in H as [Hc H].
  constructor; [now rewrite is_word_char_lower | now apply IH].
Qed.

Lemma agent_search_head (l name : list ascii) :
  agent_match_at l = Some name -> agent_search l = Some name.
Proof.
  intros H. destruct l; [vm_compute in H; discriminate H|].
  cbn [agent_search]. now rewrite H.
Qed.

(** X9: in a body of code points below 256 that starts with "agent: ", a
    name of word characters is extracted in lower case and stops at the
    first character that is not a word character: "agent:
    backend-specialist" names "backend".  (Above 255 [str.lower] can turn
    one word character into two code points, the second not a word
    character.) *)
Theorem extract_agent_first_word (w rest : string) :
  w <> "" ->
  forallb is_word (chars w) = true ->
  match rest with
  | EmptyString => True
  | String c _ => is_word c = false
  end ->
  _extract_agent_assignment ("agent: " +:+ w +:+ rest) = Some (lower w).
Proof.
  intros Hne Hw Hrest.
  unfold _extract_agent_assignment.
  rewrite !lower_append.
  change (lower "agent: ") with "agent: ".
  pose proof (chars_lower_word w Hw) as Hlw.
  assert (Hcut : take_while is_word (chars (lower w +:+ lower rest)) = chars (lower w)).
  { rewrite chars_append. apply take_while_app; [exact Hlw|].
    destruct rest as [|c rest]; simpl; [exact I|].
    now rewrite is_word_char_lower. }
  destruct w as [|c w]; [now elim Hne|].
  inversion Hlw as [|? ? Hc _]; subst.
  set (X := lower (String c w) +:+ lower rest) in *.
  assert (HX : chars X = char_lower c :: chars (lower w +:+ lower rest)) by reflexivity.
  assert (Hm : agent_match_at (chars ("agent: " +:+ X)) = Some (chars (lower (String c w)))).
  { unfold agent_match_at.
    replace (startswith (string_of_list_ascii (chars ("agent: " +:+ X))) "agent:")
      with true by (unfold chars; now rewrite string_of_list_ascii_of_string).
    change (skipn 6 (chars ("agent: " +:+ X))) with (ascii_of_N 32 :: chars X).
    change (drop_while is_space (ascii_of_N 32 :: chars X))
      with (drop_while is_space (chars X)).
    rewrite HX. cbn [drop_while].
    rewrite (is_word_not_space _ Hc), (is_word_not_at _ Hc).
    rewrite <- HX, Hcut. reflexivity. }
  rewrite (agent_search_head _ _ Hm). simpl option_map.
  unfold chars. now rewrite string_of_list_ascii_of_string.
Qed.

Lemma extract_agent_first_word_witness :
  _extract_agent_assignment ("agent: " +:+ "backend" +:+ "-specialist")
  = Some (lower "backend").
Proof.
  apply (extract_agent_first_word "backend" "-specialist").
  - discriminate.
  - reflexivity.
  - reflexivity.
Defined.

(** ** configure_pr_automation *)

Lemma setex_refuses (key : string) (ttl : Z) (value : string) (r : RedisClient) :
  hd false (faults r) = true ->
  setex key ttl value r =
  (Redis (store r) (tl (faults r)), Raise (PyErr ConnectionError "Connection refused")).
Proof.
  unfold setex. destruct (faults r) as [|[] rest]; simpl; intros H;
    solve [discriminate | reflexivity].
Qed.

(** The call on a connected project, up to the cache write. *)
Lemma configure_connected
    (remote : Remote) (arguments : AutomationArguments) (self : Server)
    (project_id : string) (project repo : json) :
  cfg_project_id arguments = Some project_id ->
  _get_project_info remote project_id = Ok project ->
  json_get project "githubRepoId" JNull = Ok repo ->
  json_truthy repo = true ->
  _configure_pr_automation remote arguments self =
  try_except
    (persist_config (py_str repo) (config_of_arguments arguments) ;;;
     ret (Configured (config_of_arguments arguments)
            ("PR automation configured for project " +:+ project_id)))
    (fun e =>
       log ERROR ("Error configuring PR automation: " +:+ exn_str e) ;;;
       ret (NotConfigured (exn_str e)))
    (set_pr_configs (<[py_str repo := config_of_arguments arguments]> (pr_configs self))
                    self).
Proof.
  intros Hid Hp Hg Ht.
  unfold _configure_pr_automation, try_except, mbind, lift, store_config.
  rewrite Hid, Hp, Hg, Ht. reflexivity.
Qed.

Lemma persist_config_accepted (repo_id : string) (config : PRAutomationConfig)
    (self : Server) :
  cache_accepts self ->
  snd (persist_config repo_id config self) = Ok tt /\
  pr_configs (fst (persist_config repo_id config self)) = pr_configs self.
Proof.
  unfold cache_accepts, persist_config.
  destruct (redis_client self) as [r|]; [|now split].
  intros Hr. now rewrite (setex_accepts _ _ _ _ Hr).
Qed.

(** The call on a connected project whose cache write is accepted. *)
Lemma configure_accepted
    (remote : Remote) (arguments : AutomationArguments) (self : Server)
    (project_id : string) (project repo : json) :
  cfg_project_id arguments = Some project_id ->
  _get_project_info remote project_id = Ok project ->
  json_get project "githubRepoId" JNull = Ok repo ->
  json_truthy repo = true ->
  cache_accepts self ->
  snd (_configure_pr_automation remote arguments self) =
    Ok (Configured (config_of_arguments arguments)
          ("PR automation configured for project " +:+ project_id)) /\
  pr_configs (fst (_configure_pr_automation remote arguments self)) =
    <[py_str repo := config_of_arguments arguments]> (pr_configs self).
Proof.
  intros Hid Hp Hg Ht Hcache.
  rewrite (configure_connected _ _ _ _ _ _ Hid Hp Hg Ht).
  set (stored := set_pr_configs _ self).
  assert (Hcache' : cache_accepts stored) by exact Hcache.
  destruct (persist_config_accepted (py_str repo) (config_of_arguments arguments)
              stored Hcache') as [Hok Hcfg].
  unfold try_except, mbind, ret.
  destruct (persist_config (py_str repo) (config_of_arguments arguments) stored)
    as [s' res] eqn:E.
  simpl in Hok, Hcfg. subst res. simpl. split; [reflexivity|].
  rewrite Hcfg. reflexivity.
Qed.

(** X10: after a successful configuration of a project, looking up a
    repository whose id prints as the project's githubRepoId returns the
    configuration just built from the arguments; looking up any other
    repository returns what it returned before. *)
Theorem configure_then_get
    (remote : Remote) (arguments : AutomationArguments) (self : Server)
    (project_id : string) (project repo : json) (repository : list (string * json)) :
  cfg_project_id arguments = Some project_id ->
  _get_project_info remote project_id = Ok project ->
  json_get project "githubRepoId" JNull = Ok repo ->
  json_truthy repo = true ->
  cache_accepts self ->
  snd (_configure_pr_automation remote arguments self) =
    Ok (Configured (config_of_arguments arguments)
          ("PR automation configured for project " +:+ project_id)) /\
  snd (_get_pr_config repository (fst (_configure_pr_automation remote arguments self))) =
    (if String.eqb (repo_id_of repository) (py_str repo)
     then Ok (config_of_arguments arguments)
     else snd (_get_pr_config repository self)).
Proof.
  intros Hid Hp Hg Ht Hcache.
  destruct (configure_accepted remote arguments self project_id project repo
              Hid Hp Hg Ht Hcache) as [Hok Hcfg].
  split; [exact Hok|].
  unfold _get_pr_config. rewrite Hcfg.
  destruct (String.eqb_spec (repo_id_of repository) (py_str repo)) as [->|Hne].
  - now rewrite lookup_insert_eq.
  - rewrite lookup_insert_ne by congruence.
    now destruct (pr_configs self !! repo_id_of repository).
Qed.

Lemma configure_then_get_witness :
  snd (_configure_pr_automation empty_remote strict_arguments configured_server) =
    Ok (Configured (config_of_arguments strict_arguments)
          ("PR automation configured for project " +:+ "proj-123")) /\
  snd (_get_pr_config test_repository
         (fst (_configure_pr_automation empty_remote strict_arguments configured_server))) =
    (if String.eqb (repo_id_of test_repository) (py_str (JStr "123"))
     then Ok (config_of_arguments strict_arguments)
     else snd (_get_pr_config test_repository configured_server)).
Proof.
  exact (configure_then_get empty_remote strict_arguments configured_server
           "proj-123" test_project (JStr "123") test_repository
           eq_refl eq_refl eq_refl eq_refl I).
Defined.

(** X11: when the cache client is absent or accepts its command, a call
    that answers with a failure has stored nothing: the server only gained
    log lines. *)
Theorem configure_failure_leaves_no_trace
    (remote : Remote) (arguments : AutomationArguments) (self : Server) (error : string) :
  cache_accepts self ->
  snd (_configure_pr_automation remote arguments self) = Ok (NotConfigured error) ->
  only_logged self (fst (_configure_pr_automation remote arguments self)).
Proof.
  intros Hcache.
  destruct (cfg_project_id arguments) as [project_id|] eqn:Hid.
  2: { unfold _configure_pr_automation, try_except, mbind, lift, log, ret.
       rewrite Hid. simpl. intros _. apply only_logged_add_log. }
  destruct (_get_project_info remote project_id) as [project|e] eqn:Hp.
  2: { unfold _configure_pr_automation, try_except, mbind, lift, log, ret.
       rewrite Hid, Hp. destruct (is_Exception e); simpl; intros H;
         [apply only_logged_add_log | discriminate H]. }
  destruct (json_get project "githubRepoId" JNull) as [repo|e] eqn:Hg.
  2: { unfold _configure_pr_automation, try_except, mbind, lift, log, ret.
       rewrite Hid, Hp, Hg. rewrite (json_get_is_Exception _ _ _ _ Hg). simpl.
       intros _. apply only_logged_add_log. }
  destruct (json_truthy repo) eqn:Ht.
  2: { unfold _configure_pr_automation, try_except, mbind, lift, log, ret.
       rewrite Hid, Hp, Hg, Ht. simpl. intros _. apply only_logged_refl. }
  destruct (configure_accepted remote arguments self project_id project repo
              Hid Hp Hg Ht Hcache) as [Hok _].
  rewrite Hok. discriminate.
Qed.

Lemma configure_failure_leaves_no_trace_witness :
  only_logged configured_server
    (fst (_configure_pr_automation unconnected_remote strict_arguments configured_server)).
Proof.
  exact (configure_failure_leaves_no_trace unconnected_remote strict_arguments
           configured_server "Project not connected to GitHub" I eq_refl).
Defined.

(** X12: when the cache client refuses the write, the call answers with a
    failure carrying the cache's error, yet the configuration is already
    in [pr_configs]: later lookups of the repository return it. *)
Theorem configure_cache_failure_keeps_config
    (remote : Remote) (arguments : AutomationArguments) (self : Server)
    (project_id : string) (project repo : json) (r : RedisClient) :
  cfg_project_id arguments = Some project_id ->
  _get_project_info remote project_id = Ok project ->
  json_get project "githubRepoId" JNull = Ok repo ->
  json_truthy repo = true ->
  redis_client self = Some r ->
  hd false (faults r) = true ->
  snd (_configure_pr_automation remote arguments self) =
    Ok (NotConfigured "Connection refused") /\
  pr_configs (fst (_configure_pr_automation remote arguments self)) !! py_str repo =
    Some (config_of_arguments arguments).
Proof.
  intros Hid Hp Hg Ht Hr Hfault.
  rewrite (configure_connected _ _ _ _ _ _ Hid Hp Hg Ht).
  unfold try_except, mbind, ret, log, persist_config. simpl.
  rewrite Hr, (setex_refuses _ _ _ _ Hfault). simpl.
  split; [reflexivity | apply lookup_insert_eq].
Qed.

Lemma configure_cache_failure_keeps_config_witness :
  snd (_configure_pr_automation empty_remote strict_arguments (cached_server [true])) =
    Ok (NotConfigured "Connection refused") /\
  pr_configs (fst (_configure_pr_automation empty_remote strict_arguments
                     (cached_server [true]))) !! py_str (JStr "123") =
    Some (config_of_arguments strict_arguments).
Proof.
  exact (configure_cache_failure_keeps_config empty_remote strict_arguments
           (cached_server [true]) "proj-123" test_project (JStr "123")
           (Redis ∅ [true]) eq_refl eq_refl eq_refl eq_refl eq_refl eq_refl).
Defined.

(** X13: with a cache client that accepts the write, the configuration is
    persisted under "pr:config:<repo id>" for thirty days (2592000
    seconds), as the JSON text of its fields. *)
Theorem configure_persists_thirty_days
    (remote : Remote) (arguments : AutomationArguments) (self : Server)
    (project_id : string) (project repo : json) (r : RedisClient) :
  cfg_project_id arguments = Some project_id ->
  _get_project_info remote project_id = Ok project ->
  json_get project "githubRepoId" JNull = Ok repo ->
  json_truthy repo = true ->
  redis_client self = Some r ->
  hd false (faults r) = false ->
  exists r' : RedisClient,
    redis_client (fst (_configure_pr_automation remote arguments self)) = Some r' /\
    store r' !! ("pr:config:" +:+ py_str repo) =
      Some (2592000, json_dumps false (config_dict (config_of_arguments arguments))) /\
    (forall key : string,
       key <> "pr:config:" +:+ py_str repo -> store r' !! key = store r !! key).
Proof.
  intros Hid Hp Hg Ht Hr Hfault.
  rewrite (configure_connected _ _ _ _ _ _ Hid Hp Hg Ht).
  unfold try_except, mbind, ret, persist_config. simpl.
  rewrite Hr, (setex_accepts _ _ _ _ Hfault). simpl.
  eexists. split; [reflexivity|]. simpl. split.
  - apply lookup_insert_eq.
  - intros key Hne. now apply lookup_insert_ne.
Qed.

Lemma configure_persists_thirty_days_witness :
  exists r' : RedisClient,
    redis_client (fst (_configure_pr_automation empty_remote strict_arguments
                         (cached_server []))) = Some r' /\
    store r' !! ("pr:config:" +:+ py_str (JStr "123")) =
      Some (2592000,
            json_dumps false (config_dict (config_of_arguments strict_arguments))) /\
    (forall key : string,
       key <> "pr:config:" +:+ py_str (JStr "123") ->
       store r' !! key = store (Redis ∅ []) !! key).
Proof.
  exact (configure_persists_thirty_days empty_remote strict_arguments
           (cached_server []) "proj-123" test_project (JStr "123")
           (Redis ∅ []) eq_refl eq_refl eq_refl eq_refl eq_refl eq_refl).
Defined.

(** ** More on metrics aggregation *)

Lemma scan_take_while (start_date : Z) (metrics : list string)
    (prs : list PullRequest) (acc : Accum) :
  scan start_date metrics prs acc =
  fold_left (account metrics) (take_while (in_window start_date) prs) acc.
Proof.
  revert acc. induction prs as [|pr prs IH]; intros acc; simpl; [reflexivity|].
  unfold in_window at 1. destruct (created_at pr <? start_date); simpl;
    [reflexivity | apply IH].
Qed.

Lemma account_counts (metrics : list string) (acc : Accum) (pr : PullRequest) :
  counts_agree (pr_metrics acc) ->
  counts_agree (pr_metrics (account metrics acc pr)) /\
  total_prs (pr_metrics (account metrics acc pr)) = total_prs (pr_metrics acc) + 1.
Proof.
  unfold counts_agree, account. simpl.
  destruct (merged pr), (String.eqb (state pr) "open"); simpl; lia.
Qed.

Lemma fold_account_counts (metrics : list string) (l : list PullRequest) (acc : Accum) :
  counts_agree (pr_metrics acc) ->
  counts_agree (pr_metrics (fold_left (account metrics) l acc)) /\
  total_prs (pr_metrics (fold_left (account metrics) l acc)) =
    total_prs (pr_metrics acc) + Z.of_nat (length l).
Proof.
  revert acc. induction l as [|pr l IH]; intros acc H; simpl.
  - split; [exact H | lia].
  - destruct (account_counts metrics acc pr H) as [H1 H2].
    destruct (IH _ H1) as [H3 H4]. split; [exact H3 | lia].
Qed.

Lemma aggregate_total (start_date : Z) (metrics : list string)
    (prs : list PullRequest) :
  counts_agree (fst (aggregate start_date metrics prs)) /\
  total_prs (fst (aggregate start_date metrics prs)) =
    Z.of_nat (length (take_while (in_window start_date) prs)).
Proof.
  unfold aggregate, counts_agree. simpl. rewrite scan_take_while.
  destruct (fold_account_counts metrics (take_while (in_window start_date) prs)
              accum_init eq_refl) as [H1 H2].
  unfold counts_agree in H1. simpl in H2. split; [exact H1 | lia].
Qed.

(** X14: in the metrics returned, the total is the number of pull requests
    that come before the first one older than the window, and every one of
    them is counted once as merged, open or closed without merge. *)
Theorem aggregate_counts (start_date : Z) (metrics : list string)
    (prs : list PullRequest) :
  total_prs (fst (aggregate start_date metrics prs)) =
    Z.of_nat (length (take_while (in_window start_date) prs)) /\
  merged_prs (fst (aggregate start_date metrics prs)) +
  open_prs (fst (aggregate start_date metrics prs)) +
  closed_without_merge (fst (aggregate start_date metrics prs)) =
    total_prs (fst (aggregate start_date metrics prs)).
Proof.
  destruct (aggregate_total start_date metrics prs) as [H1 H2].
  split; [exact H2 | exact H1].
Qed.

Lemma insert_desc_Forall (P : string * Z -> Prop) (kv : string * Z)
    (l : list (string * Z)) :
  P kv -> Forall P l -> Forall P (insert_desc kv l).
Proof.
  intros Hkv Hl. induction Hl as [|kv' l Hkv' Hl IH]; simpl.
  - now repeat constructor.
  - destruct (snd kv' <=? snd kv); repeat constructor; assumption.
Qed.

Lemma insert_desc_sorted (kv : string * Z) (l : list (string * Z)) :
  StronglySorted by_count_desc l -> StronglySorted by_count_desc (insert_desc kv l).
Proof.
  induction 1 as [|kv' l Hl IH Hall]; simpl.
  - repeat constructor.
  - destruct (Z.leb_spec (snd kv') (snd kv)) as [Hle|Hgt].
    + constructor; [now constructor|].
      constructor; [exact Hle|].
      eapply Forall_impl; [exact Hall|].
      intros x Hx. unfold by_count_desc in *. lia.
    + constructor; [exact IH|].
      apply insert_desc_Forall; [unfold by_count_desc; lia | exact Hall].
Qed.

Lemma sort_desc_sorted (l : list (string * Z)) :
  StronglySorted by_count_desc (sort_desc l).
Proof.
  induction l as [|kv l IH]; simpl; [constructor | now apply insert_desc_sorted].
Qed.

Lemma StronglySorted_firstn {A : Type} (R : A -> A -> Prop) (n : nat) (l : list A) :
  StronglySorted R l -> StronglySorted R (firstn n l).
Proof.
  intros H. revert n. induction H as [|x l Hl IH Hall]; intros [|n]; simpl;
    try constructor.
  - apply IH.
  - now apply Forall_take.
Qed.

(** X15: the contributors returned are at most ten and come by decreasing
    number of pull requests. *)
Theorem top_contributors_sorted (start_date : Z) (metrics : list string)
    (prs : list PullRequest) :
  (length (top_contributors (fst (aggregate start_date metrics prs))) <= 10)%nat /\
  StronglySorted by_count_desc
    (top_contributors (fst (aggregate start_date metrics prs))).
Proof.
  unfold aggregate. simpl. split.
  - rewrite length_take. lia.
  - apply StronglySorted_firstn, sort_desc_sorted.
Qed.

Lemma insights_nil_total (m : PRMetrics) :
  _generate_pr_insights m = [] -> total_prs m <= 0.
Proof.
  unfold _generate_pr_insights.
  destruct (Z.ltb_spec 0 (total_prs m)) as [Hpos|Hle]; [discriminate | lia].
Qed.

(** X16: the list of insights is empty exactly when no pull request falls
    inside the window. *)
Theorem insights_empty_iff (start_date : Z) (metrics : list string)
    (prs : list PullRequest) :
  snd (aggregate start_date metrics prs) = [] <->
  total_prs (fst (aggregate start_date metrics prs)) = 0.
Proof.
  destruct (aggregate_total start_date metrics prs) as [_ Htotal].
  split.
  - intros H. apply insights_nil_total in H.
    unfold aggregate in *. simpl in *. lia.
  - intros H. rewrite H in Htotal.
    assert (Hnil : take_while (in_window start_date) prs = []).
    { destruct (take_while (in_window start_date) prs); [reflexivity|].
      simpl in Htotal. lia. }
    unfold aggregate. simpl. rewrite scan_take_while, Hnil. reflexivity.
Qed.

(** X17: when every failure of the remote services derives from
    Exception, the analysis never raises: it answers with a success or a
    failure, and changes nothing in the server but its log. *)
Theorem analyze_never_raises
    (remote : Remote) (arguments : MetricsArguments) (self : Server) :
  remote_fails_softly remote ->
  exists response : Response,
    snd (_analyze_pr_metrics remote arguments self) = Ok response /\
    only_logged self (fst (_analyze_pr_metrics remote arguments self)).
Proof.
  intros (Hproject & Hrepo & Hpulls).
  destruct (arg_project_id arguments) as [project_id|] eqn:Hid.
  2: { unfold _analyze_pr_metrics, try_except, mbind, lift, log, ret.
       rewrite Hid. simpl. eauto using only_logged_add_log. }
  destruct (_get_project_info remote project_id) as [project|e] eqn:Hp.
  2: { unfold _analyze_pr_metrics, try_except, mbind, lift, log, ret.
       rewrite Hid, Hp, (Hproject _ _ Hp). simpl. eauto using only_logged_add_log. }
  destruct (json_get project "githubRepoId" JNull) as [repo_id|e] eqn:Hg.
  2: { unfold _analyze_pr_metrics, try_except, mbind, lift, log, ret.
       rewrite Hid, Hp, Hg, (json_get_is_Exception _ _ _ _ Hg). simpl.
       eauto using only_logged_add_log. }
  destruct (json_truthy repo_id) eqn:Ht.
  2: { unfold _analyze_pr_metrics, try_except, mbind, lift, log, ret.
       rewrite Hid, Hp, Hg, Ht. simpl. eauto using only_logged_refl. }
  destruct (get_repo_by_id remote repo_id) as [repo|e] eqn:Hr.
  2: { unfold _analyze_pr_metrics, try_except, mbind, lift, log, ret.
       rewrite Hid, Hp, Hg, Ht, Hr. simpl. rewrite (Hrepo _ _ Hr). simpl.
       eauto using only_logged_add_log. }
  rewrite (analyze_connected remote arguments self project_id project repo_id repo
             Hid Hp Hg Ht Hr).
  unfold try_except, mbind, lift, log, ret.
  destruct (window_start _ _) as [start_date|e] eqn:Hw.
  2: { rewrite (window_start_is_Exception _ _ _ Hw). simpl.
       eauto using only_logged_add_log. }
  destruct (get_pulls repo) as [prs|e] eqn:Hl.
  - simpl. eauto using only_logged_refl.
  - rewrite (Hpulls _ _ _ Hr Hl). simpl. eauto using only_logged_add_log.
Qed.

Lemma analyze_never_raises_witness :
  exists response : Response,
    snd (_analyze_pr_metrics failing_remote test_arguments test_server) = Ok response /\
    only_logged test_server
      (fst (_analyze_pr_metrics failing_remote test_arguments test_server)).
Proof.
  apply (analyze_never_raises failing_remote test_arguments test_server).
  split; [|split].
  - intros project_id e H. discriminate H.
  - intros repo_id e H. discriminate H.
  - intros repo_id repo e H. injection H as <-. simpl.
    intros H. injection H as <-. reflexivity.
Defined.

(** ** Studio notifications and tasks *)

Lemma only_logged_studio_client (self self' : Server) :
  only_logged self self' -> studio_client self' = studio_client self.
Proof. intros [ls ->]. reflexivity. Qed.

(** X18: notifying the Studio backend never raises and never posts
    anything to Studio, whatever the event and the payload: the lookup of
    the project of a repository always answers None. *)
Theorem notify_never_posts (event_type : option string) (payload : json)
    (self : Server) :
  snd (_notify_studio_backend event_type payload self) = Ok tt /\
  studio_client (fst (_notify_studio_backend event_type payload self)) =
    studio_client self /\
  only_logged self (fst (_notify_studio_backend event_type payload self)).
Proof.
  destruct (notify_only_logs event_type payload self) as [self' [H Hlog]].
  rewrite H. simpl. repeat split; [|exact Hlog].
  now apply only_logged_studio_client.
Qed.

(** X19: creating the Studio task of a pull request never raises and
    never posts a task, whatever the repository and the pull request. *)
Theorem create_task_for_pr_never_posts (repository pr : list (string * json))
    (self : Server) :
  snd (_create_task_for_pr repository pr self) = Ok tt /\
  studio_client (fst (_create_task_for_pr repository pr self)) =
    studio_client self /\
  only_logged self (fst (_create_task_for_pr repository pr self)).
Proof.
  assert (H : exists self', _create_task_for_pr repository pr self = (self', Ok tt) /\
                            only_logged self self').
  { unfold _create_task_for_pr, try_except, mbind, lift, _get_project_id_for_repo,
      ret, log.
    destruct (json_get (JDict repository) "owner" (JDict [])) as [owner|e] eqn:E1.
    2: { rewrite (json_get_is_Exception _ _ _ _ E1). eauto using only_logged_add_log. }
    destruct (json_get owner "login" JNull) as [login|e] eqn:E2.
    2: { rewrite (json_get_is_Exception _ _ _ _ E2). eauto using only_logged_add_log. }
    destruct (json_get (JDict repository) "name" JNull) as [name|e] eqn:E3.
    2: { rewrite (json_get_is_Exception _ _ _ _ E3). eauto using only_logged_add_log. }
    simpl. eauto using only_logged_refl. }
  destruct H as [self' [H Hlog]]. rewrite H. simpl. repeat split; [|exact Hlog].
  now apply only_logged_studio_client.
Qed.

(** ** Tool dispatch *)

(** Building the table of handlers stops at the first method the server
    does not have. *)
Lemma build_handlers_missing (before : list (string * string)) (tool method : string)
    (after : list (string * string)) :
  forallb (fun entry => in_list (snd entry) server_methods) before = true ->
  in_list method server_methods = false ->
  build_handlers (before ++ (tool, method) :: after) =
  Raise (PyErr AttributeError
           ("'GitHubIntegrationMCPServer' object has no attribute '" +:+ method +:+ "'")).
Proof.
  intros Hbefore Hmissing.
  induction before as [|[t m] before IH].
  - cbn [app build_handlers]. unfold getattr_method. now rewrite Hmissing.
  - cbn [forallb snd] in Hbefore. apply andb_true_iff in Hbefore as [Hm Hbefore].
    cbn [app build_handlers]. unfold getattr_method at 1.
    rewrite Hm. now rewrite (IH Hbefore).
Qed.

(** X20: every tool call raises AttributeError before any tool runs: the
    table of tool handlers names the method [_manage_pr_reviewers], which
    the server does not have. *)
Theorem call_tool_impl_raises (invoke : string -> json -> M json)
    (tool_name : string) (arguments : json) (self : Server) :
  call_tool_impl invoke tool_name arguments self =
  (self, Raise (PyErr AttributeError
     "'GitHubIntegrationMCPServer' object has no attribute '_manage_pr_reviewers'")).
Proof.
  unfold call_tool_impl, mbind, lift.
  change tool_table
    with (firstn 3 tool_table ++
          ("manage_pr_reviewers", "_manage_pr_reviewers") :: skipn 4 tool_table).
  rewrite build_handlers_missing; reflexivity.
Qed.

(** ** Connected repositories *)

Lemma py_iter_is_Exception (j : json) (e : exn) :
  py_iter j = Raise e -> is_Exception e = true.
Proof. destruct j; simpl; intros [= <-]; reflexivity. Qed.

Lemma connected_repo_is_Exception (project : json) (e : exn) :
  connected_repo project = Raise e -> is_Exception e = true.
Proof.
  unfold connected_repo, dict_item.
  destruct project; try (intros [= <-]; reflexivity).
  destruct (json_truthy _); [|discriminate].
  destruct (dict_get _ "id"); intros [= <-]. reflexivity.
Qed.

Lemma collect_repos_is_Exception (projects repos : list json) (e : exn) :
  collect_repos projects repos = Raise e -> is_Exception e = true.
Proof.
  revert repos. induction projects as [|p projects IH]; intros repos; simpl.
  - discriminate.
  - destruct (connected_repo p) as [[repo|]|e'] eqn:E.
    + apply IH.
    + apply IH.
    + intros [= <-]. exact (connected_repo_is_Exception _ _ E).
Qed.

Lemma collect_repos_raises (projects repos : list json) :
  Exists (fun p => exists e, connected_repo p = Raise e) projects ->
  exists e, collect_repos projects repos = Raise e.
Proof.
  intros H. revert repos. induction H as [p projects [e He]|p projects _ IH];
    intros repos; simpl.
  - rewrite He. eauto.
  - destruct (connected_repo p) as [[repo|]|e]; eauto.
Qed.

(** X21: listing the connected repositories never raises when the
    failures of the Studio client derive from Exception: it returns a
    list and changes nothing in the server but its log. *)
Theorem connected_repositories_never_raises (answer : result HttpResponse)
    (self : Server) :
  (forall e, answer = Raise e -> is_Exception e = true) ->
  (forall r e, answer = Ok r -> response_json r = Raise e -> is_Exception e = true) ->
  exists repos : list json,
    snd (_get_connected_repositories answer self) = Ok repos /\
    only_logged self (fst (_get_connected_repositories answer self)).
Proof.
  intros Hanswer Hjson.
  unfold _get_connected_repositories, try_except, mbind, lift, ret, log.
  destruct answer as [r|e].
  2: { rewrite (Hanswer e eq_refl). simpl. eauto using only_logged_add_log. }
  destruct (status_code r =? 200); [|simpl; eauto using only_logged_refl].
  destruct (response_json r) as [projects|e] eqn:Ej.
  2: { rewrite (Hjson r e eq_refl Ej). simpl. eauto using only_logged_add_log. }
  destruct (py_iter projects) as [items|e] eqn:Ei.
  2: { rewrite (py_iter_is_Exception _ _ Ei). simpl. eauto using only_logged_add_log. }
  destruct (collect_repos items []) as [repos|e] eqn:Ec.
  - simpl. eauto using only_logged_refl.
  - rewrite (collect_repos_is_Exception _ _ _ Ec). simpl.
    eauto using only_logged_add_log.
Qed.

Lemma connected_repositories_never_raises_witness :
  exists repos : list json,
    snd (_get_connected_repositories
           (projects_answer (JList [connected_project])) test_server) = Ok repos /\
    only_logged test_server
      (fst (_get_connected_repositories
              (projects_answer (JList [connected_project])) test_server)).
Proof.
  apply (connected_repositories_never_raises
           (projects_answer (JList [connected_project])) test_server).
  - intros e H. discriminate H.
  - intros r e H. injection H as <-. simpl. intros H. discriminate H.
Defined.

(** X22: one project the loop cannot read (a connected project with no
    "id", or an item that is not a dict) empties the whole answer: the
    repositories collected before it are dropped, the error is logged and
    the empty list is returned. *)
Theorem connected_repositories_all_or_nothing (r : HttpResponse)
    (projects : list json) (self : Server) :
  status_code r = 200 ->
  response_json r = Ok (JList projects) ->
  Exists (fun p => exists e, connected_repo p = Raise e) projects ->
  exists e : exn,
    _get_connected_repositories (Ok r) self =
    (add_log (Log ERROR ("Error getting connected repositories: " +:+ exn_str e)) self,
     Ok []).
Proof.
  intros Hstatus Hjson Hbad.
  destruct (collect_repos_raises projects [] Hbad) as [e He].
  exists e.
  unfold _get_connected_repositories, try_except, mbind, lift, ret, log.
  rewrite Hstatus, Hjson. simpl. rewrite He.
  rewrite (collect_repos_is_Exception _ _ _ He). reflexivity.
Qed.

Lemma connected_repositories_all_or_nothing_witness :
  exists e : exn,
    _get_connected_repositories
      (projects_answer (JList [connected_project; nameless_project])) test_server =
    (add_log (Log ERROR ("Error getting connected repositories: " +:+ exn_str e))
       test_server,
     Ok []).
Proof.
  apply (connected_repositories_all_or_nothing
           {| status_code := 200;
              response_json := Ok (JList [connected_project; nameless_project]) |}
           [connected_project; nameless_project] test_server).
  - reflexivity.
  - reflexivity.
  - apply Exists_cons_tl, Exists_cons_hd.
    exists (PyErr KeyError "'id'"). reflexivity.
Defined.

(** ** More on the webhook endpoint *)

Lemma compare_digest_true (a b : string) : HMAC.compare_digest a b = Ok true -> a = b.
Proof.
  unfold HMAC.compare_digest.
  destruct (is_ascii a && is_ascii b); [|discriminate].
  intros [= H]. now apply _tscmp_spec, codes_inj in H.
Qed.

(** The only path of [_verify_webhook_signature] that returns True. *)
Lemma verify_true_compared (self : Server) (request : Request)
    (signature : option string) :
  _verify_webhook_signature self request signature = Ok true ->
  exists secret sig : string,
    webhook_secret self = Some secret /\ signature = Some sig /\
    str_truthy secret = true /\
    HMAC.compare_digest (valid_signature secret (body request)) sig = Ok true.
Proof.
  unfold _verify_webhook_signature.
  destruct (webhook_secret self) as [secret|]; [|discriminate].
  destruct signature as [sig|]; [|discriminate].
  destruct (str_truthy secret) eqn:Hsecret; [|discriminate].
  destruct (str_truthy sig); [|discriminate]. simpl.
  intros H. exists secret, sig. repeat split; assumption.
Qed.

(** X23: a signature is accepted only if it is the one GitHub computes:
    when [_verify_webhook_signature] returns True, the server has a
    non-empty secret and the signature is "sha256=" followed by the
    hexadecimal HMAC-SHA256 of the body under that secret. *)
Theorem verify_sound (self : Server) (request : Request) (signature : option string) :
  _verify_webhook_signature self request signature = Ok true ->
  exists secret : string,
    webhook_secret self = Some secret /\ str_truthy secret = true /\
    signature = Some (valid_signature secret (body request)).
Proof.
  intros H.
  destruct (verify_true_compared self request signature H)
    as [secret [sig [Hs [-> [Ht Hc]]]]].
  apply compare_digest_true in Hc. subst sig.
  exists secret. repeat split; assumption.
Qed.

Lemma verify_sound_witness :
  exists secret : string,
    webhook_secret test_server = Some secret /\ str_truthy secret = true /\
    Some (valid_signature test_secret test_body) =
    Some (valid_signature secret (body (test_request))).
Proof.
  apply (verify_sound test_server test_request
           (Some (valid_signature test_secret test_body))).
  vm_compute. reflexivity.
Defined.

(** X24: without a configured secret, or without the signature header,
    the endpoint answers 401 and neither logs nor queues anything. *)
Theorem github_webhook_fails_closed (self : Server) (request : Request)
    (background_tasks : list Task) :
  opt_truthy (webhook_secret self) &&
  opt_truthy (headers_get request "X-Hub-Signature-256") = false ->
  github_webhook self request background_tasks =
  (self, background_tasks, Raise (PyErr (HTTPException 401) "Invalid signature")).
Proof.
  unfold github_webhook, _verify_webhook_signature, opt_truthy.
  destruct (webhook_secret self) as [secret|];
    destruct (headers_get request "X-Hub-Signature-256") as [sig|];
    try reflexivity.
  destruct (str_truthy secret), (str_truthy sig); simpl;
    solve [discriminate | reflexivity].
Qed.

Lemma github_webhook_fails_closed_witness :
  github_webhook test_server unsigned_request [] =
  (test_server, [], Raise (PyErr (HTTPException 401) "Invalid signature")).
Proof.
  apply (github_webhook_fails_closed test_server unsigned_request []).
  reflexivity.
Defined.

(** X25: the endpoint queues a task only for a request whose signature
    header is the valid signature of its body; it then queues exactly one
    task, that of the event and delivery named by the headers. *)
Theorem github_webhook_queues_only_signed (self : Server) (request : Request)
    (background_tasks : list Task) :
  snd (fst (github_webhook self request background_tasks)) <> background_tasks ->
  exists (secret : string) (payload : json),
    webhook_secret self = Some secret /\
    headers_get request "X-Hub-Signature-256" =
      Some (valid_signature secret (body request)) /\
    json_body request = Ok payload /\
    snd (fst (github_webhook self request background_tasks)) =
      background_tasks ++
      [Build_Task (headers_get request "X-GitHub-Event") payload
                  (headers_get request "X-GitHub-Delivery")].
Proof.
  unfold github_webhook.
  destruct (_verify_webhook_signature self request
              (headers_get request "X-Hub-Signature-256")) as [[|]|e] eqn:Hv;
    simpl; try congruence.
  destruct (verify_true_compared _ _ _ Hv) as [secret [sig [Hs [Hsig [_ Hc]]]]].
  apply compare_digest_true in Hc. subst sig.
  destruct (json_body request) as [payload|e]; simpl; [|congruence].
  intros _. exists secret, payload. repeat split; assumption.
Qed.

Lemma github_webhook_queues_only_signed_witness :
  exists (secret : string) (payload : json),
    webhook_secret test_server = Some secret /\
    headers_get test_request "X-Hub-Signature-256" =
      Some (valid_signature secret (body test_request)) /\
    json_body test_request = Ok payload /\
    snd (fst (github_webhook test_server test_request [])) =
      [] ++
      [Build_Task (headers_get test_request "X-GitHub-Event") payload
                  (headers_get test_request "X-GitHub-Delivery")].
Proof.
  apply (github_webhook_queues_only_signed test_server test_request []).
  vm_compute. discriminate.
Defined.

(** ** More on cache keys *)











Lemma concat_colon_cons (a b : string) (rest : list string) :
  String.concat ":" ((a +:+ ":" +:+ b) :: rest) = String.concat ":" (a :: b :: rest).
Proof.
  destruct rest as [|c rest].
  - reflexivity.
  - change (String.concat ":" ((a +:+ ":" +:+ b) :: c :: rest))
      with ((a +:+ ":" +:+ b) +:+ ":" +:+ String.concat ":" (c :: rest)).
    change (String.concat ":" (a :: b :: c :: rest))
      with (a +:+ ":" +:+ b +:+ ":" +:+ String.concat ":" (c :: rest)).
    generalize (":" +:+ String.concat ":" (c :: rest)). intros t.
    induction a as [|x a IH]; [reflexivity|].
    change (String x ((a +:+ ":" +:+ b) +:+ t) = String x (a +:+ ":" +:+ b +:+ t)).
    now f_equal.
Qed.

(** X27: the key does not keep its arguments apart: two string arguments
    give the key of the single string that joins them with a colon, and a
    dict gives the key of its JSON text with sorted keys. *)
Theorem generate_cache_key_collisions (a b : string) (entries : list (string * json))
    (rest : list json) :
  CacheUtils.generate_cache_key (JStr a :: JStr b :: rest) =
    CacheUtils.generate_cache_key (JStr (a +:+ ":" +:+ b) :: rest) /\
  CacheUtils.generate_cache_key (JDict entries :: rest) =
    CacheUtils.generate_cache_key (JStr (json_dumps true (JDict entries)) :: rest).
Proof.
  unfold CacheUtils.generate_cache_key. split.
  - change (map CacheUtils.key_part (JStr a :: JStr b :: rest))
      with (a :: b :: map CacheUtils.key_part rest).
    change (map CacheUtils.key_part (JStr (a +:+ ":" +:+ b) :: rest))
      with ((a +:+ ":" +:+ b) :: map CacheUtils.key_part rest).
    now rewrite concat_colon_cons.
  - reflexivity.
Qed.
